(** * Media organiser: shallow embedding of [main.go] and its properties

    The program walks a source directory, fingerprints every image or
    video file, drops duplicates, resolves a date for the others and
    moves them to [<target>/<images|videos>/<YYYY>/<MM>/<stamp>[-NN]<ext>].

    The Go functions are embedded as Rocq functions over an explicit
    model of the operating system: a map from paths to files, a set of
    directories, the lines written to standard output, the list of
    system calls issued so far and a tick counter for the wall clock.
    Failures of the operating system are injected through an [env]
    record, so every theorem quantifies over all failure patterns. *)

From Stdlib Require Import Ascii String DecimalString DecimalNat.
From stdpp Require Import gmap strings list fin_maps.

Local Open Scope string_scope.
Local Open Scope list_scope.

(** ** Strings *)

Module Str.

(** [strings.ToLower], on the ASCII range. *)
Definition lower_ascii (c : ascii) : ascii :=
  let n := nat_of_ascii c in
  if (65 <=? n)%nat && (n <=? 90)%nat then ascii_of_nat (n + 32) else c.

Fixpoint ToLower (s : string) : string :=
  match s with
  | EmptyString => EmptyString
  | String c r => String (lower_ascii c) (ToLower r)
  end.

(** Does the character [c] occur in [s]? *)
Fixpoint occurs (c : ascii) (s : string) : bool :=
  match s with
  | EmptyString => false
  | String a r => if Ascii.eqb a c then true else occurs c r
  end.

Definition is_empty (s : string) : bool :=
  match s with EmptyString => true | _ => false end.

(** [filepath.Ext]: the suffix starting at the last dot of the last
    path element, empty when that element has no dot. *)
Fixpoint Ext (path : string) : string :=
  match path with
  | EmptyString => EmptyString
  | String c r =>
      let e := Ext r in
      if negb (is_empty e) then e
      else if occurs "/" r then EmptyString
      else if Ascii.eqb c "." then String c r
      else EmptyString
  end.

(** [filepath.Dir] on a path without trailing separator: everything before
    the last separator, ["."] when there is none. *)
Fixpoint dir_aux (path : string) : option string :=
  match path with
  | EmptyString => None
  | String c r =>
      match dir_aux r with
      | Some d => Some (String c d)
      | None => if Ascii.eqb c "/" then Some EmptyString else None
      end
  end.

Definition Dir (path : string) : string :=
  match dir_aux path with
  | Some EmptyString => "/"
  | Some d => d
  | None => "."
  end.

(** [filepath.Join] of path elements: empty elements are ignored and the
    others are joined with separators. The final [Clean] is left out: the
    elements the program joins are clean already. *)
Fixpoint Join (elems : list string) : string :=
  match elems with
  | [] => EmptyString
  | e :: rest =>
      let r := Join rest in
      if is_empty e then r
      else if is_empty r then e
      else e +:+ "/" +:+ r
  end.

(** Decimal rendering of a natural number, zero padded to [width]
    digits ([%02d] and the numeric fields of [time.Format]). *)
Fixpoint zeros (n : nat) : string :=
  match n with
  | O => EmptyString
  | S k => String "0" (zeros k)
  end.

Definition decimal (n : nat) : string := NilEmpty.string_of_uint (Nat.to_uint n).

Definition padded (width n : nat) : string :=
  let d := decimal n in zeros (width - String.length d) +:+ d.

End Str.

(** ** Time *)

(** A [time.Time] as the civil time its location shows; [nsec] is the
    part below the second, which no layout used by the program prints. *)
Record time := Time {
  year : nat; month : nat; day : nat;
  hour : nat; minute : nat; second : nat; nsec : nat
}.

(** [t.Format("2006")] and [t.Format("01")]. *)
Definition Format_year (t : time) : string := Str.padded 4 (year t).
Definition Format_month (t : time) : string := Str.padded 2 (month t).

(** [t.Format("02-01-2006-15-04-05")]. *)
Definition Format_stamp (t : time) : string :=
  Str.padded 2 (day t) +:+ "-" +:+ Str.padded 2 (month t) +:+ "-" +:+
  Str.padded 4 (year t) +:+ "-" +:+ Str.padded 2 (hour t) +:+ "-" +:+
  Str.padded 2 (minute t) +:+ "-" +:+ Str.padded 2 (second t).

(** ** Extension classes *)

(** isImageFile checks if the file extension is a known image extension. *)
Definition isImageFile (ext : string) : bool :=
  bool_decide (ext ∈ [".jpg"; ".jpeg"; ".png"; ".gif"; ".bmp"; ".tiff"; ".webp"]).

(** isVideoFile checks if the file extension is a known video extension. *)
Definition isVideoFile (ext : string) : bool :=
  bool_decide (ext ∈ [".mp4"; ".avi"; ".mov"; ".mkv"; ".vob"; ".flv"; ".wmv"; ".webm"; ".mpg"]).

(** ** The operating system *)

(** A Go [error], represented by the text [err.Error()] gives; [nil] is
    [None] where a function returns only an error. *)
Definition error := string.

Inductive result (A : Type) : Type :=
| Ok (a : A)
| Err (e : error).
Arguments Ok {A} a.
Arguments Err {A} e.

Record file := File { content : string; modTime : time }.

(** What [exif.Decode] returns; [DateTime] is the method [x.DateTime()]. *)
Record exif := Exif { DateTime : result time }.

(** The system calls the program can issue, logged in the order issued. *)
Inductive call : Type :=
| COpen (path : string)
| CRead (path : string)
| CStat (path : string)
| CCreate (path : string)
| CCopy (src dest : string)
| CRename (src dest : string)
| CRemove (path : string)
| CMkdirAll (path : string)
| CNow.

#[global] Instance call_eq_dec : EqDecision call.
Proof. solve_decision. Defined.

(** Is the call one that can change the file system? *)
Definition mutating (c : call) : bool :=
  match c with
  | CCreate _ | CCopy _ _ | CRename _ _ | CRemove _ | CMkdirAll _ => true
  | COpen _ | CRead _ | CStat _ | CNow => false
  end.

Record world := World {
  files : gmap string file;   (* regular files, by path *)
  dirs : gset string;         (* directories, by path *)
  stdout : list string;       (* lines printed so far *)
  calls : list call;          (* system calls issued so far *)
  ticks : nat                 (* readings of the wall clock so far *)
}.

(** One visit of [filepath.Walk]: the arguments it passes to the callback. *)
Record entry := Entry { e_path : string; e_isDir : bool; e_err : option error }.

(** Everything the program takes from outside: the digest, the EXIF
    decoder, the wall clock, the order in which [filepath.Walk] visits a
    root, and which system call fails on which path with which error.
    The callback sees the files as they are when a path is visited. *)
Record env := Env {
  sha256_hex : string -> string;
  exif_Decode : string -> result exif;
  wallClock : nat -> time;
  Walk_visits : string -> list entry;
  open_err : string -> option error;
  read_err : string -> option error;
  stat_err : string -> option error;
  create_err : string -> option error;
  copy_err : string -> string -> option (nat * error);
  rename_err : string -> string -> option error;
  remove_err : string -> option error;
  mkdir_err : string -> option error
}.

(** State monad over the world. *)
Definition M (A : Type) : Type := world -> A * world.

Definition ret {A} (a : A) : M A := fun w => (a, w).
Definition bind {A B} (m : M A) (k : A -> M B) : M B :=
  fun w => let (a, w') := m w in k a w'.

Declare Scope os_scope.
Delimit Scope os_scope with os.
Notation "x <- m ;; k" := (bind m (fun x => k))
  (at level 100, m at next level, right associativity) : os_scope.
Notation "m ;;; k" := (bind m (fun _ => k))
  (at level 100, right associativity) : os_scope.
Local Open Scope os_scope.

Definition no_such (op path : string) : error :=
  op +:+ " " +:+ path +:+ ": no such file or directory".

Module OS.

Definition set_files (f : gmap string file -> gmap string file) (w : world) : world :=
  World (f (files w)) (dirs w) (stdout w) (calls w) (ticks w).
Definition set_dirs (f : gset string -> gset string) (w : world) : world :=
  World (files w) (f (dirs w)) (stdout w) (calls w) (ticks w).

Definition log (c : call) : M unit :=
  fun w => (tt, World (files w) (dirs w) (stdout w) (calls w ++ [c]) (ticks w)).

(** [fmt.Printf] of one line; the trailing newline is left out. *)
Definition Printf (line : string) : M unit :=
  fun w => (tt, World (files w) (dirs w) (stdout w ++ [line]) (calls w) (ticks w)).

(** The proper ancestors of a path: its prefixes ending before a separator. *)
Fixpoint prefixes (path : string) : list string :=
  match path with
  | EmptyString => []
  | String c r =>
      (if Ascii.eqb c "/" then [EmptyString] else []) ++ map (String c) (prefixes r)
  end.

Definition ancestors (path : string) : list string :=
  filter (fun p => p <> EmptyString) (prefixes path).

Section Calls.
Variable E : env.

(** [os.Open]: the handle is the path; the file must exist. *)
Definition Open (path : string) : M (result string) :=
  log (COpen path) ;;;
  fun w =>
    match files w !! path with
    | None => (Err (no_such "open" path), w)
    | Some _ =>
        match open_err E path with
        | Some e => (Err e, w)
        | None => (Ok path, w)
        end
    end.

(** Reading an open file to its end ([io.Copy] into the hasher, and the
    decoder reading the image). *)
Definition ReadAll (handle : string) : M (result string) :=
  log (CRead handle) ;;;
  fun w =>
    match files w !! handle with
    | None => (Err (no_such "read" handle), w)
    | Some f =>
        match read_err E handle with
        | Some e => (Err e, w)
        | None => (Ok (content f), w)
        end
    end.

(** [os.Stat], of which the program uses [ModTime]. *)
Definition Stat (path : string) : M (result time) :=
  log (CStat path) ;;;
  fun w =>
    match files w !! path with
    | None => (Err (no_such "stat" path), w)
    | Some f =>
        match stat_err E path with
        | Some e => (Err e, w)
        | None => (Ok (modTime f), w)
        end
    end.

(** [time.Now]. *)
Definition Now : M time :=
  log CNow ;;;
  fun w => (wallClock E (ticks w),
            World (files w) (dirs w) (stdout w) (calls w) (S (ticks w))).

(** [os.Create]: creates the file or truncates it. *)
Definition Create (path : string) : M (result string) :=
  log (CCreate path) ;;;
  fun w =>
    match create_err E path with
    | Some e => (Err e, w)
    | None =>
        (Ok path, set_files (insert path (File EmptyString (wallClock E (ticks w)))) w)
    end.

(** [io.Copy dst src] between two open files. When it fails after [n]
    bytes, those [n] bytes stay in the destination. *)
Definition Copy (dst src : string) : M (result nat) :=
  log (CCopy src dst) ;;;
  fun w =>
    match files w !! src with
    | None => (Err (no_such "read" src), w)
    | Some f =>
        let stamp := default (modTime f) (modTime <$> files w !! dst) in
        match copy_err E src dst with
        | Some (n, e) =>
            (Err e, set_files (insert dst (File (substring 0 n (content f)) stamp)) w)
        | None =>
            (Ok (String.length (content f)),
             set_files (insert dst (File (content f) stamp)) w)
        end
    end.

(** [os.Rename]. Renaming an existing file to its own path succeeds and
    does nothing, as rename(2) specifies. *)
Definition Rename (src dest : string) : M (option error) :=
  log (CRename src dest) ;;;
  fun w =>
    match files w !! src with
    | None => (Some (no_such "rename" src), w)
    | Some f =>
        if decide (src = dest) then (None, w)
        else
          match rename_err E src dest with
          | Some e => (Some e, w)
          | None => (None, set_files (fun m => <[dest:=f]> (delete src m)) w)
          end
    end.

(** [os.Remove] of a regular file. *)
Definition Remove (path : string) : M (option error) :=
  log (CRemove path) ;;;
  fun w =>
    match files w !! path with
    | None => (Some (no_such "remove" path), w)
    | Some _ =>
        match remove_err E path with
        | Some e => (Some e, w)
        | None => (None, set_files (delete path) w)
        end
    end.

(** [os.MkdirAll]: creates the directory and the missing ancestors. *)
Definition MkdirAll (path : string) : M (option error) :=
  log (CMkdirAll path) ;;;
  fun w =>
    match mkdir_err E path with
    | Some e => (Some e, w)
    | None =>
        (None, set_dirs (fun d => d ∪ list_to_set (path :: ancestors path)) w)
    end.

End Calls.
End OS.

(** ** The program *)

(** The two maps [processFiles] allocates and its callback updates. *)
Record maps := Maps {
  fileHashes : gmap string string;     (* hash -> first path seen with it *)
  timestampCounter : gmap string nat   (* stamp -> last counter handed out *)
}.

Section Program.
Variable E : env.

(** calculateFileHash computes the SHA-256 hash of a file. *)
Definition calculateFileHash (filePath : string) : M (result string) :=
  r <- OS.Open E filePath ;;
  match r with
  | Err err => ret (Err err)
  | Ok file =>
      r <- OS.ReadAll E file ;;
      match r with
      | Err err => ret (Err err)
      | Ok bytes => ret (Ok (sha256_hex E bytes))
      end
  end.

(** getFileCreationDate returns the file's modification time. *)
Definition getFileCreationDate (filePath : string) : M (result time) :=
  r <- OS.Stat E filePath ;;
  match r with
  | Err err => ret (Err err)
  | Ok modtime => ret (Ok modtime)
  end.

(** getVideoDate uses the file's modification time. *)
Definition getVideoDate (filePath : string) : M (result time) :=
  getFileCreationDate filePath.

(** [exif.Decode(file)]: the decoder reads the open file. *)
Definition Decode (file : string) : M (result exif) :=
  r <- OS.ReadAll E file ;;
  match r with
  | Err err => ret (Err err)
  | Ok bytes => ret (exif_Decode E bytes)
  end.

(** getImageDate reads EXIF data from an image and returns the date taken. *)
Definition getImageDate (filePath : string) : M (result time) :=
  r <- OS.Open E filePath ;;
  match r with
  | Err err => ret (Err err)
  | Ok file =>
      r <- Decode file ;;
      match r with
      | Err err =>
          ret (Err ("error extracting EXIF data from image " +:+ filePath +:+ ": " +:+ err))
      | Ok x =>
          match DateTime x with
          | Err err =>
              ret (Err ("error extracting date from EXIF data for image "
                          +:+ filePath +:+ ": " +:+ err))
          | Ok date => ret (Ok date)
          end
      end
  end.

(** getFileDate attempts to extract the date from an image or video file. *)
Definition getFileDate (filePath : string) : M (result time) :=
  let ext := Str.ToLower (Str.Ext filePath) in
  if isImageFile ext then
    r <- getImageDate filePath ;;
    match r with
    | Err err =>
        ret (Err ("error extracting date from image " +:+ filePath +:+ ": " +:+ err))
    | Ok fileDate => ret (Ok fileDate)
    end
  else if isVideoFile ext then
    r <- getVideoDate filePath ;;
    match r with
    | Err err =>
        ret (Err ("error extracting date from video " +:+ filePath +:+ ": " +:+ err))
    | Ok fileDate => ret (Ok fileDate)
    end
  else
    r <- getFileCreationDate filePath ;;
    match r with
    | Err err =>
        ret (Err ("error getting file creation date for " +:+ filePath +:+ ": " +:+ err))
    | Ok fileDate => ret (Ok fileDate)
    end.

(** copyFile copies a file from src to dest. *)
Definition copyFile (src dest : string) : M (option error) :=
  r <- OS.Open E src ;;
  match r with
  | Err err => ret (Some err)
  | Ok sourceFile =>
      r <- OS.Create E dest ;;
      match r with
      | Err err => ret (Some err)
      | Ok destinationFile =>
          r <- OS.Copy E destinationFile sourceFile ;;
          match r with
          | Err err => ret (Some err)
          | Ok _ => ret None
          end
      end
  end.

(** moveFile moves a file from source to target location. *)
Definition moveFile (src dest : string) : M (option error) :=
  err <- OS.MkdirAll E (Str.Dir dest) ;;
  match err with
  | Some err => ret (Some err)
  | None =>
      err <- OS.Rename E src dest ;;
      match err with
      | None => ret None
      | Some _ =>
          err <- copyFile src dest ;;
          match err with
          | Some err => ret (Some err)
          | None =>
              err <- OS.Remove E src ;;
              match err with
              | Some err => ret (Some err)
              | None => ret None
              end
          end
      end
  end.

(** The callback [processFiles] hands to [filepath.Walk]. *)
Definition walkFn (targetDir : string) (dryRun : bool) (st : maps) (v : entry)
  : M (maps * option error) :=
  let path := e_path v in
  match e_err v with
  | Some err => ret (st, Some err)
  | None =>
  if e_isDir v then ret (st, None) else
  let ext := Str.ToLower (Str.Ext path) in
  if isImageFile ext || isVideoFile ext then
    r <- calculateFileHash path ;;
    match r with
    | Err err => ret (st, Some err)
    | Ok hash =>
    match fileHashes st !! hash with
    | Some existingPath =>
        OS.Printf ("Duplicate file found: " +:+ path +:+ " (duplicate of "
                     +:+ existingPath +:+ ")") ;;;
        if negb dryRun then
          err <- OS.Remove E path ;;
          match err with
          | Some err =>
              OS.Printf ("Error deleting file " +:+ path +:+ ": " +:+ err) ;;;
              ret (st, None)
          | None =>
              OS.Printf ("Deleted duplicate file: " +:+ path) ;;;
              ret (st, None)
          end
        else ret (st, None)
    | None =>
    let st := Maps (<[hash:=path]> (fileHashes st)) (timestampCounter st) in
    r <- getFileDate path ;;
    fileDate <- match r with
                | Err err =>
                    OS.Printf ("Error extracting date for file " +:+ path +:+ ": " +:+ err) ;;;
                    OS.Now E
                | Ok fileDate => ret fileDate
                end ;;
    let subDir :=
      if isImageFile ext then
        Str.Join [targetDir; "images"; Format_year fileDate; Format_month fileDate]
      else if isVideoFile ext then
        Str.Join [targetDir; "videos"; Format_year fileDate; Format_month fileDate]
      else EmptyString in
    err <- OS.MkdirAll E subDir ;;
    match err with
    | Some err => ret (st, Some err)
    | None =>
    let timestampStr := Format_stamp fileDate in
    let counter :=
      match timestampCounter st !! timestampStr with
      | Some count => count + 1
      | None => 0
      end in
    let st := Maps (fileHashes st) (<[timestampStr:=counter]> (timestampCounter st)) in
    let newFileName :=
      if decide (0 < counter) then
        timestampStr +:+ "-" +:+ Str.padded 2 counter +:+ ext
      else timestampStr +:+ ext in
    let newPath := Str.Join [subDir; newFileName] in
    if negb dryRun then
      err <- moveFile path newPath ;;
      match err with
      | Some err => ret (st, Some err)
      | None =>
          OS.Printf ("Moved and renamed: " +:+ path +:+ " -> " +:+ newPath) ;;;
          ret (st, None)
      end
    else
      OS.Printf ("Dry-run: File would be moved and renamed: " +:+ path +:+ " -> "
                   +:+ newPath) ;;;
      ret (st, None)
    end
    end
    end
  else ret (st, None)
  end.

(** [filepath.Walk]: the callback is applied to the visits in order and
    the first error it returns ends the walk and is returned. *)
Fixpoint Walk (fn : maps -> entry -> M (maps * option error)) (st : maps)
  (visits : list entry) : M (maps * option error) :=
  match visits with
  | [] => ret (st, None)
  | v :: rest =>
      r <- fn st v ;;
      match r with
      | (st', Some err) => ret (st', Some err)
      | (st', None) => Walk fn st' rest
      end
  end.

(** processFiles processes files in the source directory. *)
Definition processFiles (sourceDir targetDir : string) (dryRun : bool) : M (option error) :=
  let fileHashes := ∅ in
  let timestampCounter := ∅ in
  r <- Walk (walkFn targetDir dryRun) (Maps fileHashes timestampCounter)
         (Walk_visits E sourceDir) ;;
  ret (snd r).

End Program.

(** ** Notions used to state the properties *)

(** Decimal digits, and strings made of them. *)
Definition is_digit (c : ascii) : bool :=
  let n := nat_of_ascii c in (48 <=? n)%nat && (n <=? 57)%nat.

Fixpoint all_digits (s : string) : bool :=
  match s with
  | EmptyString => true
  | String c r => is_digit c && all_digits r
  end.

(** The number a zero-padded rendering stands for. *)
Definition value (s : string) : option nat :=
  Nat.of_uint <$> NilEmpty.uint_of_string s.

(** The string does not begin with a digit. *)
Definition no_digit_ahead (s : string) : bool :=
  match s with
  | EmptyString => true
  | String c _ => negb (is_digit c)
  end.

(** The lowercased extension of a visited path and whether the callback
    handles it. *)
Definition extOf (v : entry) : string := Str.ToLower (Str.Ext (e_path v)).
Definition isMedia (v : entry) : bool := isImageFile (extOf v) || isVideoFile (extOf v).

(** The calls issued between two worlds of one run. *)
Definition since (w w' : world) : list call := drop (length (calls w)) (calls w').

(** The parts of the callback the properties speak about, each proved
    below to be what [walkFn] does. *)
Section Notions.
Variable E : env.

(** Lines 99-106: the date of the file, or the current time when
    [getFileDate] fails. *)
Definition resolveDate (path : string) : M time :=
  r <- getFileDate E path ;;
  match r with
  | Err err =>
      OS.Printf ("Error extracting date for file " +:+ path +:+ ": " +:+ err) ;;;
      OS.Now E
  | Ok fileDate => ret fileDate
  end.

(** Lines 108-116: the directory a file of that extension and date goes to. *)
Definition subDirOf (targetDir ext : string) (fileDate : time) : string :=
  if isImageFile ext then
    Str.Join [targetDir; "images"; Format_year fileDate; Format_month fileDate]
  else if isVideoFile ext then
    Str.Join [targetDir; "videos"; Format_year fileDate; Format_month fileDate]
  else EmptyString.

(** Lines 127-131: the counter for the next file with that stamp. *)
Definition nextCounter (tc : gmap string nat) (timestampStr : string) : nat :=
  match tc !! timestampStr with
  | Some count => count + 1
  | None => 0
  end.

(** Lines 135-143: the file name for a stamp, a counter and an extension. *)
Definition fileName (timestampStr : string) (counter : nat) (ext : string) : string :=
  if decide (0 < counter) then
    timestampStr +:+ "-" +:+ Str.padded 2 counter +:+ ext
  else timestampStr +:+ ext.

(** Lines 148-157: the move, or its announcement in a dry run. *)
Definition transfer (dryRun : bool) (st : maps) (path newPath : string)
  : M (maps * option error) :=
  if negb dryRun then
    err <- moveFile E path newPath ;;
    match err with
    | Some err => ret (st, Some err)
    | None =>
        OS.Printf ("Moved and renamed: " +:+ path +:+ " -> " +:+ newPath) ;;;
        ret (st, None)
    end
  else
    OS.Printf ("Dry-run: File would be moved and renamed: " +:+ path +:+ " -> "
                 +:+ newPath) ;;;
    ret (st, None).

(** Lines 83-94: what the callback does with a file whose fingerprint is
    known already. *)
Definition skipDuplicate (dryRun : bool) (st : maps) (path existingPath : string)
  : M (maps * option error) :=
  OS.Printf ("Duplicate file found: " +:+ path +:+ " (duplicate of "
               +:+ existingPath +:+ ")") ;;;
  if negb dryRun then
    err <- OS.Remove E path ;;
    match err with
    | Some err =>
        OS.Printf ("Error deleting file " +:+ path +:+ ": " +:+ err) ;;;
        ret (st, None)
    | None =>
        OS.Printf ("Deleted duplicate file: " +:+ path) ;;;
        ret (st, None)
    end
  else ret (st, None).

(** What the callback decides for a file it is going to place. *)
Record plan := Plan {
  p_src : string;      (* the visited path *)
  p_hash : string;     (* its fingerprint *)
  p_ext : string;      (* its lowercased extension *)
  p_date : time;       (* its resolved date *)
  p_counter : nat;     (* the counter drawn for its stamp *)
  p_subDir : string    (* the directory it goes to *)
}.

Definition p_stamp (p : plan) : string := Format_stamp (p_date p).
Definition p_name (p : plan) : string := fileName (p_stamp p) (p_counter p) (p_ext p).
Definition p_dest (p : plan) : string := Str.Join [p_subDir p; p_name p].

(** The line a dry run prints for a plan. *)
Definition announcement (p : plan) : string :=
  "Dry-run: File would be moved and renamed: " +:+ p_src p +:+ " -> " +:+ p_dest p.

(** The plan the callback makes at a visit, if it gets as far as naming
    the file: the visit is a new image or video whose fingerprint could be
    computed and whose directory could be created. *)
Definition plan_of (targetDir : string) (st : maps) (v : entry) (w : world) : option plan :=
  match e_err v with
  | Some _ => None
  | None =>
      if e_isDir v then None
      else if isMedia v then
        match calculateFileHash E (e_path v) w with
        | (Err _, _) => None
        | (Ok hash, w2) =>
            match fileHashes st !! hash with
            | Some _ => None
            | None =>
                let (fileDate, w3) := resolveDate (e_path v) w2 in
                let subDir := subDirOf targetDir (extOf v) fileDate in
                match (OS.MkdirAll E subDir w3).1 with
                | Some _ => None
                | None =>
                    let timestampStr := Format_stamp fileDate in
                    Some (Plan (e_path v) hash (extOf v) fileDate
                            (nextCounter (timestampCounter st) timestampStr) subDir)
                end
            end
        end
      else None
  end.

(** The plans of a walk, in the order of the visits. *)
Fixpoint plans (targetDir : string) (dryRun : bool) (st : maps) (visits : list entry)
  (w : world) : list plan :=
  match visits with
  | [] => []
  | v :: rest =>
      let '((st', r), w') := walkFn E targetDir dryRun st v w in
      option_list (plan_of targetDir st v w) ++
      match r with
      | Some _ => []
      | None => plans targetDir dryRun st' rest w'
      end
  end.

(** A visit at which the walk must stop: the fingerprint of a new image or
    video cannot be computed, or its directory cannot be created. [e] is
    the error of the failing call and [wf] the world it leaves. *)
Definition fatal_at (targetDir : string) (st : maps) (v : entry) (w : world)
  (e : error) (wf : world) : Prop :=
  calculateFileHash E (e_path v) w = (Err e, wf) \/
  exists h w2 d w3,
    calculateFileHash E (e_path v) w = (Ok h, w2) /\
    fileHashes st !! h = None /\
    resolveDate (e_path v) w2 = (d, w3) /\
    OS.MkdirAll E (subDirOf targetDir (extOf v) d) w3 = (Some e, wf).

(** A file that can be opened and read to its end. *)
Definition readable (path : string) : Prop :=
  open_err E path = None /\ read_err E path = None.

(** The plans of a run of [processFiles], which starts with empty maps. *)
Definition run_plans (sourceDir targetDir : string) (dryRun : bool) (w : world)
  : list plan :=
  plans targetDir dryRun (Maps ∅ ∅) (Walk_visits E sourceDir) w.

(** How many of the plans carry the stamp [s]. *)
Definition with_stamp (s : string) (ps : list plan) : nat :=
  length (filter (fun p => p_stamp p = s) ps).

(** The counters record, for every stamp, how many plans drew from it. *)
Definition counters_track (st : maps) (ps : list plan) : Prop :=
  forall s, timestampCounter st !! s =
            match with_stamp s ps with
            | O => None
            | S k => Some k
            end.

End Notions.

(** The claim that files of other kinds are fingerprinted but not moved:
    the callback reads the file, afterwards knows its fingerprint, and
    leaves the files where they are. *)
Definition other_kinds_are_hashed : Prop :=
  forall (E : env) (targetDir : string) (dryRun : bool) (st : maps) (v : entry)
         (w : world) (f : file),
    e_err v = None -> e_isDir v = false ->
    isImageFile (extOf v) = false -> isVideoFile (extOf v) = false ->
    files w !! e_path v = Some f -> readable E (e_path v) ->
    CRead (e_path v) ∈ since w (walkFn E targetDir dryRun st v w).2 /\
    is_Some (fileHashes (walkFn E targetDir dryRun st v w).1.1
               !! sha256_hex E (content f)) /\
    files (walkFn E targetDir dryRun st v w).2 = files w.

(** ** Sample runs *)

Module Demo.

(** A stand-in for the digest: any function of the content will do. *)
Definition digest (bytes : string) : string := "sha256:" +:+ bytes.

Definition taken : time := Time 2023 5 1 10 0 0 0.
Definition modified : time := Time 2020 1 15 8 30 0 0.
Definition clock (n : nat) : time := Time 2026 10 31 12 0 n 0.

(** Contents beginning with [IMG] decode and carry the date [taken];
    those beginning with [RAW] decode without a date; others do not decode. *)
Definition decode (bytes : string) : result exif :=
  if String.prefix "IMG" bytes then Ok (Exif (Ok taken))
  else if String.prefix "RAW" bytes then Ok (Exif (Err "exif: tag DateTime is not present"))
  else Err "EOF".

(** An environment visiting [visits], where the call [c] fails with
    [fail c]; a failing copy stops after two bytes. *)
Definition env_of (visits : list entry) (fail : call -> option error) : env :=
  Env digest decode clock (fun _ => visits)
      (fun path => fail (COpen path))
      (fun path => fail (CRead path))
      (fun path => fail (CStat path))
      (fun path => fail (CCreate path))
      (fun src dest => (fun e => (2, e)) <$> fail (CCopy src dest))
      (fun src dest => fail (CRename src dest))
      (fun path => fail (CRemove path))
      (fun path => fail (CMkdirAll path)).

Definition never : call -> option error := fun _ => None.

Definition fails_at (c : call) (e : error) : call -> option error :=
  fun c' => if decide (c' = c) then Some e else None.

Definition visit (path : string) : entry := Entry path false None.

(** The source tree: two images with the same bytes, two more images
    taken at the same second, a picture without metadata, a video whose
    modification time is that same second, and a note. *)
Definition tree : world :=
  World (list_to_map
           [("src/a.jpg", File "IMG-one" modified);
            ("src/b.jpg", File "IMG-one" modified);
            ("src/c.jpg", File "IMG-two" modified);
            ("src/d.png", File "PNG" modified);
            ("src/e.mp4", File "MP4" taken);
            ("src/f.jpg", File "IMG-three" modified);
            ("src/notes.txt", File "IMG-one" modified)])
        (list_to_set ["src"; "dst"]) [] [] 0.

Definition all_visits : list entry :=
  [Entry "src" true None; visit "src/a.jpg"; visit "src/b.jpg"; visit "src/c.jpg";
   visit "src/d.png"; visit "src/e.mp4"; visit "src/f.jpg"; visit "src/notes.txt"].

(** The plain run, a run where [src/c.jpg] cannot be opened, and a run
    where the directory for [src/d.png] cannot be created. *)
Definition plain : env := env_of all_visits never.
Definition unreadable : env :=
  env_of all_visits (fails_at (COpen "src/c.jpg") "open src/c.jpg: permission denied").
Definition read_only : env :=
  env_of all_visits
    (fails_at (CMkdirAll "dst/images/2026/10") "mkdir dst/images: read-only file system").

(** Another volume: renames fail, and copies fail when the disk is full. *)
Definition other_volume (c : call) : option error :=
  match c with
  | CRename _ _ => Some "invalid cross-device link"
  | CCopy _ _ => Some "no space left on device"
  | _ => None
  end.
Definition full_disk : env := env_of all_visits other_volume.

(** Where a walk over [visits] from empty maps ends. *)
Definition after (E : env) (dryRun : bool) (visits : list entry) : maps * world :=
  let r := Walk (walkFn E "dst" dryRun) (Maps ∅ ∅) visits tree in (r.1.1, r.2).

(** The plans the plain run makes for [src/a.jpg], [src/c.jpg] and [src/e.mp4]. *)
Definition plan_a : plan :=
  Plan "src/a.jpg" "sha256:IMG-one" ".jpg" taken 0 "dst/images/2023/05".
Definition plan_c : plan :=
  Plan "src/c.jpg" "sha256:IMG-two" ".jpg" taken 1 "dst/images/2023/05".
Definition plan_e : plan :=
  Plan "src/e.mp4" "sha256:MP4" ".mp4" taken 2 "dst/videos/2023/05".

End Demo.

(** ** Further notions *)

Section MoreNotions.
Variable E : env.

(** The world in which the callback starts the transfer of a file it has
    planned: after the fingerprint, the date and the directory. *)
Definition placing_world (targetDir : string) (v : entry) (w : world) : world :=
  let (_, w2) := calculateFileHash E (e_path v) w in
  let (fileDate, w3) := resolveDate E (e_path v) w2 in
  (OS.MkdirAll E (subDirOf targetDir (extOf v) fileDate) w3).2.

(** The maps after the callback has planned [p]. *)
Definition planned_maps (st : maps) (p : plan) : maps :=
  Maps (<[p_hash p:=p_src p]> (fileHashes st))
       (<[p_stamp p:=p_counter p]> (timestampCounter st)).

(** The three ways a visit can stop the walk: the walk reports an error
    for the entry, the visit is fatal in the sense of [fatal_at], or the
    move of the planned file fails. [e] is the error and [w'] the world. *)
Definition stops_at (targetDir : string) (dryRun : bool) (st : maps) (v : entry)
  (w : world) (e : error) (w' : world) : Prop :=
  (e_err v = Some e /\ w' = w) \/
  (e_err v = None /\ e_isDir v = false /\ isMedia v = true /\
   fatal_at E targetDir st v w e w') \/
  (dryRun = false /\ exists p,
     plan_of E targetDir st v w = Some p /\
     moveFile E (p_src p) (p_dest p) (placing_world targetDir v w) = (Some e, w')).

End MoreNotions.

(** ** The entry point *)

Section MainProgram.
Variable E : env.

(** [fmt.Scanln(&s)] on standard input, given as the tokens the successive
    calls scan: the variable takes the next token, and stays empty when
    there is none (the program ignores the error). *)
Definition Scanln (stdin : list string) : string * list string :=
  match stdin with
  | [] => (EmptyString, [])
  | token :: rest => (token, rest)
  end.

(** [os.Stat] of a path that may be a file or a directory. The result is
    [nil], or the error together with what [os.IsNotExist] says of it.
    [stat_err] stands for the failures that are not "does not exist"
    (no permission on a parent, a parent that is no directory), which can
    hit a path whether it exists or not. *)
Definition StatPath (path : string) : M (option (error * bool)) :=
  OS.log (CStat path) ;;;
  fun w =>
    match stat_err E path with
    | Some e => (Some (e, false), w)
    | None =>
        if bool_decide (is_Some (files w !! path)) || bool_decide (path ∈ dirs w)
        then (None, w)
        else (Some (no_such "stat" path, true), w)
    end.

Definition IsNotExist (err : option (error * bool)) : bool :=
  match err with
  | Some (_, notExist) => notExist
  | None => false
  end.

(** [fmt.Printf("%v", b)] of a boolean. *)
Definition show_bool (b : bool) : string := if b then "true" else "false".

(** main: the prompts, the checks and the run. *)
Definition main (stdin : list string) : M unit :=
  OS.Printf "Dry-run (yes/no): " ;;;
  let (dryRunInput, stdin) := Scanln stdin in
  let dryRun := bool_decide (Str.ToLower dryRunInput = "yes") in
  OS.Printf "Enter source directory: " ;;;
  let (sourceDir, stdin) := Scanln stdin in
  OS.Printf "Enter target directory: " ;;;
  let (targetDir, stdin) := Scanln stdin in
  err <- StatPath sourceDir ;;
  if IsNotExist err then
    OS.Printf "Error: Source directory does not exist."
  else
    err <- StatPath targetDir ;;
    if IsNotExist err then
      OS.Printf "Error: Target directory does not exist."
    else
      OS.Printf ("Source Directory: " +:+ sourceDir) ;;;
      OS.Printf ("Target Directory: " +:+ targetDir) ;;;
      OS.Printf ("Dry Run: " +:+ show_bool dryRun) ;;;
      err <- processFiles E sourceDir targetDir dryRun ;;
      match err with
      | Some err => OS.Printf ("Error processing files: " +:+ err)
      | None => ret tt
      end.

End MainProgram.

(** The path is neither a file nor a directory. *)
Definition missing (w : world) (path : string) : Prop :=
  files w !! path = None /\ path ∉ dirs w.

(** ** More sample runs *)

Module Demo2.
Import Demo.

(** Another volume where the source directory is write-protected: renames
    fail and the source cannot be removed after the copy. *)
Definition protected_source (c : call) : option error :=
  match c with
  | CRename _ _ => Some "invalid cross-device link"
  | CRemove _ => Some "permission denied"
  | _ => None
  end.
Definition sticky : env := env_of all_visits protected_source.


(** The plain run, one visit in: [src/a.jpg] has been placed. *)
Definition placed_a : maps * world :=
  let r := walkFn plain "dst" false (Maps ∅ ∅) (visit "src/a.jpg") tree in (r.1.1, r.2).

End Demo2.

Example Ext_jpg : Str.Ext "src/a.b/Photo.JPG" = ".JPG".
Proof. reflexivity. Qed.
Example Ext_none : Str.Ext "src/a.b/Photo" = "".
Proof. reflexivity. Qed.
Example Dir_ex : Str.Dir "dst/images/2023/05/x.jpg" = "dst/images/2023/05".
Proof. reflexivity. Qed.
Example stamp_ex :
  Format_stamp (Time 2023 5 1 10 0 0 7) = "01-05-2023-10-00-00".
Proof. reflexivity. Qed.
Example image_ex : isImageFile (Str.ToLower ".JPG") = true.
Proof. reflexivity. Qed.

(** ** Basic facts about the monad and the system calls *)

Lemma since_app w w' tr : calls w' = calls w ++ tr -> since w w' = tr.
Proof. intros H. unfold since. rewrite H. by rewrite drop_app_length. Qed.

Ltac not_issued :=
  let H := fresh in
  intros H; repeat (apply elem_of_cons in H as [H|H]; [discriminate H|]);
  by apply elem_of_nil in H.

Ltac unfold_os :=
  unfold OS.Open, OS.ReadAll, OS.Stat, OS.Now, OS.Create, OS.Copy, OS.Rename,
    OS.Remove, OS.MkdirAll, OS.Printf, OS.log, OS.set_files, OS.set_dirs, bind, ret in *;
  simpl in *.

(** ** Transfer *)

Section Transfer.
Variable E : env.

Lemma MkdirAll_files path w : files (OS.MkdirAll E path w).2 = files w.
Proof. unfold_os. by destruct (mkdir_err E path). Qed.

Lemma MkdirAll_calls path w :
  calls (OS.MkdirAll E path w).2 = calls w ++ [CMkdirAll path].
Proof. unfold_os. by destruct (mkdir_err E path). Qed.

Lemma MkdirAll_result path w : (OS.MkdirAll E path w).1 = mkdir_err E path.
Proof. unfold_os. by destruct (mkdir_err E path). Qed.

(** A rename that fails leaves every file as it was, and either the
    source does not exist or the destination is another path. *)
Lemma Rename_failed src dest w e w' :
  OS.Rename E src dest w = (Some e, w') ->
  files w' = files w /\ calls w' = calls w ++ [CRename src dest] /\
  (files w !! src = None \/ src <> dest).
Proof.
  unfold_os. destruct (files w !! src) eqn:Hs.
  - destruct (decide (src = dest)); [done|].
    destruct (rename_err E src dest); [|done].
    intros [= <- <-]. auto.
  - intros [= <- <-]. auto.
Qed.

(** A copy that fails has not touched the source, whatever it left at
    the destination, and has not removed anything. *)
Lemma copyFile_failed src dest w e w' :
  files w !! src = None \/ src <> dest ->
  copyFile E src dest w = (Some e, w') ->
  files w' !! src = files w !! src /\
  exists tr, calls w' = calls w ++ tr /\ CRemove src ∉ tr.
Proof.
  intros Hsd. unfold copyFile. unfold_os.
  destruct (files w !! src) as [f|] eqn:Hs.
  - destruct Hsd as [|Hne]; [done|].
    destruct (open_err E src).
    + intros [= <- <-]. simpl. split; [done|].
      exists [COpen src]. split; [done|]. not_issued.
    + simpl. destruct (create_err E dest).
      * intros [= <- <-]. simpl. split; [done|].
        exists [COpen src; CCreate dest]. rewrite <- app_assoc. split; [done|]. not_issued.
      * simpl. rewrite lookup_insert_ne by done. rewrite Hs.
        destruct (copy_err E src dest) as [[n e']|]; [|done].
        intros [= <- <-]. simpl. rewrite !lookup_insert_ne by done.
        split; [done|].
        exists [COpen src; CCreate dest; CCopy src dest].
        rewrite <- !app_assoc. split; [done|]. not_issued.
  - intros [= <- <-]. simpl. split; [done|].
    exists [COpen src]. split; [done|]. not_issued.
Qed.

(** A copy that succeeds has written the bytes of the source to the
    destination. *)
Lemma copyFile_done src dest w w' :
  src <> dest ->
  copyFile E src dest w = (None, w') ->
  content <$> files w' !! dest = content <$> files w !! src /\
  files w' !! src = files w !! src /\
  calls w' = calls w ++ [COpen src; CCreate dest; CCopy src dest].
Proof.
  intros Hne. unfold copyFile. unfold_os.
  destruct (files w !! src) as [f|] eqn:Hs; [|done].
  destruct (open_err E src); [done|]. simpl.
  destruct (create_err E dest); [done|]. simpl.
  rewrite lookup_insert_ne by done. rewrite Hs.
  destruct (copy_err E src dest) as [[n e']|]; [done|].
  intros [= <-]. simpl. rewrite lookup_insert_eq.
  rewrite !(lookup_insert_ne _ dest src) by congruence.
  rewrite <- !app_assoc. by rewrite Hs.
Qed.

Lemma copyFile_needs_source src dest w w' :
  copyFile E src dest w = (None, w') -> is_Some (files w !! src).
Proof.
  unfold copyFile. unfold_os. destruct (files w !! src); [eauto|done].
Qed.

End Transfer.

Section TransferClaims.
Variable E : env.


(** C9. When the rename fails and the copy fails after the destination
    has been created, the transfer returns the copy's error, the source
    is kept, and the destination stays behind with the bytes written
    before the failure (none, some, never removed): the calls issued end
    with the copy, nothing cleans the destination up. *)
Theorem failed_copy_leaves_partial_destination
  (src dest : string) (w : world) (f : file) (rn : error) (n : nat) (e : error) :
  files w !! src = Some f ->
  mkdir_err E (Str.Dir dest) = None ->
  (OS.Rename E src dest w).1 = Some rn ->
  open_err E src = None ->
  create_err E dest = None ->
  copy_err E src dest = Some (n, e) ->
  exists w', moveFile E src dest w = (Some e, w') /\
    files w' !! src = Some f /\
    content <$> files w' !! dest = Some (substring 0 n (content f)) /\
    since w w' = [CMkdirAll (Str.Dir dest); CRename src dest; COpen src;
                  CCreate dest; CCopy src dest].
Proof.
  intros Hs Hmk Hrn Hop Hcr Hcp.
  assert (Hne : src <> dest).
  { revert Hrn. unfold_os. rewrite Hs. by destruct (decide (src = dest)). }
  assert (Hre : exists e', rename_err E src dest = Some e').
  { revert Hrn. unfold_os. rewrite Hs. destruct (decide (src = dest)); [done|].
    destruct (rename_err E src dest); [eauto|done]. }
  destruct Hre as [e' Hre]. clear Hrn.
  unfold moveFile, copyFile. unfold_os.
  rewrite Hmk. simpl. rewrite Hs. destruct (decide (src = dest)); [done|].
  rewrite Hre. simpl. rewrite Hs, Hop. simpl. rewrite Hcr. simpl.
  rewrite lookup_insert_ne by congruence. rewrite Hs, Hcp.
  eexists. split; [reflexivity|]. simpl.
  rewrite !lookup_insert_eq. rewrite !(lookup_insert_ne _ dest src) by congruence.
  split; [done|]. split; [done|].
  apply since_app. simpl. by rewrite <- !app_assoc.
Qed.

End TransferClaims.

(** ** The callback, case by case *)

Section Callback.
Variable E : env.
Variables (targetDir : string) (dryRun : bool).

Lemma walkFn_error st v e w :
  e_err v = Some e -> walkFn E targetDir dryRun st v w = ((st, Some e), w).
Proof. intros H. unfold walkFn. by rewrite H. Qed.

Lemma walkFn_dir st v w :
  e_err v = None -> e_isDir v = true ->
  walkFn E targetDir dryRun st v w = ((st, None), w).
Proof. intros H1 H2. unfold walkFn. by rewrite H1, H2. Qed.

Lemma walkFn_other st v w :
  e_err v = None -> e_isDir v = false -> isMedia v = false ->
  walkFn E targetDir dryRun st v w = ((st, None), w).
Proof.
  intros H1 H2 H3. unfold walkFn. rewrite H1, H2.
  unfold isMedia, extOf in H3. by rewrite H3.
Qed.

Lemma walkFn_hash_failed st v w e w2 :
  e_err v = None -> e_isDir v = false -> isMedia v = true ->
  calculateFileHash E (e_path v) w = (Err e, w2) ->
  walkFn E targetDir dryRun st v w = ((st, Some e), w2).
Proof.
  intros H1 H2 H3 Hh. unfold walkFn. rewrite H1, H2.
  unfold isMedia, extOf in H3. rewrite H3.
  unfold bind at 1. by rewrite Hh.
Qed.

Lemma walkFn_duplicate st v w h w2 existingPath :
  e_err v = None -> e_isDir v = false -> isMedia v = true ->
  calculateFileHash E (e_path v) w = (Ok h, w2) ->
  fileHashes st !! h = Some existingPath ->
  walkFn E targetDir dryRun st v w = skipDuplicate E dryRun st (e_path v) existingPath w2.
Proof.
  intros H1 H2 H3 Hh Hd. unfold walkFn. rewrite H1, H2.
  unfold isMedia, extOf in H3. rewrite H3.
  unfold bind at 1. rewrite Hh, Hd. reflexivity.
Qed.

Lemma walkFn_fresh st v w h w2 d w3 :
  e_err v = None -> e_isDir v = false -> isMedia v = true ->
  calculateFileHash E (e_path v) w = (Ok h, w2) ->
  fileHashes st !! h = None ->
  resolveDate E (e_path v) w2 = (d, w3) ->
  let subDir := subDirOf targetDir (extOf v) d in
  let s := Format_stamp d in
  let c := nextCounter (timestampCounter st) s in
  walkFn E targetDir dryRun st v w =
    match OS.MkdirAll E subDir w3 with
    | (Some e, w4) => ((Maps (<[h:=e_path v]> (fileHashes st)) (timestampCounter st), Some e), w4)
    | (None, w4) =>
        transfer E dryRun
          (Maps (<[h:=e_path v]> (fileHashes st)) (<[s:=c]> (timestampCounter st)))
          (e_path v) (Str.Join [subDir; fileName s c (extOf v)]) w4
    end.
Proof.
  intros H1 H2 H3 Hh Hd Hr. simpl. unfold walkFn. rewrite H1, H2.
  unfold isMedia in H3. fold (extOf v). rewrite H3.
  unfold resolveDate in Hr. unfold transfer, subDirOf, fileName, nextCounter.
  unfold bind, ret in *. rewrite Hh, Hd.
  destruct (getFileDate E (e_path v) w2) as [[fd|err] wd].
  - injection Hr as -> ->.
    by destruct (OS.MkdirAll E _ w3) as [[e|] w4].
  - destruct (OS.Printf _ wd) as [[] wp]. rewrite Hr.
    by destruct (OS.MkdirAll E _ w3) as [[e|] w4].
Qed.

End Callback.

(** ** The walk *)

Section WalkFacts.
Variable E : env.
Variables (targetDir : string) (dryRun : bool).

Local Abbreviation fn := (walkFn E targetDir dryRun).

Lemma Walk_app st pre post w :
  Walk fn st (pre ++ post) w =
    match Walk fn st pre w with
    | ((st1, Some e), w1) => ((st1, Some e), w1)
    | ((st1, None), w1) => Walk fn st1 post w1
    end.
Proof.
  revert st w. induction pre as [|v pre IH]; intros st w; [done|].
  simpl. unfold bind. destruct (fn st v w) as [[st' [e|]] w']; [done|]. apply IH.
Qed.

Lemma Walk_stops st v post w st' e w' :
  fn st v w = ((st', Some e), w') -> Walk fn st (v :: post) w = ((st', Some e), w').
Proof. intros H. simpl. unfold bind. by rewrite H. Qed.

Lemma calculateFileHash_readable path w f :
  files w !! path = Some f -> readable E path ->
  calculateFileHash E path w =
    (Ok (sha256_hex E (content f)),
     World (files w) (dirs w) (stdout w) (calls w ++ [COpen path; CRead path]) (ticks w)).
Proof.
  intros Hf [Ho Hr]. unfold calculateFileHash. unfold_os.
  rewrite Hf, Ho. simpl. rewrite Hf, Hr. by rewrite <- app_assoc.
Qed.

Lemma transfer_maps st path newPath w st' r w' :
  transfer E dryRun st path newPath w = ((st', r), w') -> st' = st.
Proof.
  unfold transfer, OS.Printf, bind, ret. destruct dryRun; simpl.
  - by intros [= <- _ _].
  - by destruct (moveFile E path newPath w) as [[e|] w1]; intros [= <- _ _].
Qed.

Lemma skipDuplicate_maps st path existingPath w st' r w' :
  skipDuplicate E dryRun st path existingPath w = ((st', r), w') -> st' = st /\ r = None.
Proof.
  unfold skipDuplicate, OS.Printf, bind, ret.
  destruct dryRun; simpl; [by intros [= <- <- _]|].
  by destruct (OS.Remove E path _) as [[e|] w2]; intros [= <- <- _].
Qed.

(** The effect of one visit on the two maps. *)
Lemma walkFn_maps st v w st' r w' :
  fn st v w = ((st', r), w') ->
  match plan_of E targetDir st v w with
  | Some p =>
      p_src p = e_path v /\ fileHashes st !! p_hash p = None /\
      p_counter p = nextCounter (timestampCounter st) (p_stamp p) /\
      st' = Maps (<[p_hash p:=p_src p]> (fileHashes st))
                 (<[p_stamp p:=p_counter p]> (timestampCounter st))
  | None =>
      timestampCounter st' = timestampCounter st /\
      (st' = st \/
       r <> None /\ exists h, fileHashes st !! h = None /\
         fileHashes st' = <[h:=e_path v]> (fileHashes st))
  end.
Proof.
  intros Hfn. unfold plan_of.
  destruct (e_err v) as [e|] eqn:H1.
  { rewrite (walkFn_error E _ _ _ _ e) in Hfn by done. injection Hfn as <- <- <-. auto. }
  destruct (e_isDir v) eqn:H2.
  { rewrite walkFn_dir in Hfn by done. injection Hfn as <- <- <-. auto. }
  destruct (isMedia v) eqn:H3.
  2:{ rewrite walkFn_other in Hfn by done. injection Hfn as <- <- <-. auto. }
  destruct (calculateFileHash E (e_path v) w) as [[h|e] w2] eqn:Hh.
  2:{ rewrite (walkFn_hash_failed E _ _ _ _ _ e w2) in Hfn by done.
      injection Hfn as <- <- <-. auto. }
  destruct (fileHashes st !! h) as [existing|] eqn:Hd.
  { rewrite (walkFn_duplicate E _ _ _ _ _ h w2 existing) in Hfn by done.
    apply skipDuplicate_maps in Hfn as [-> _]. auto. }
  destruct (resolveDate E (e_path v) w2) as [d w3] eqn:Hr.
  rewrite (walkFn_fresh E _ _ _ _ _ h w2 d w3) in Hfn by done.
  destruct (OS.MkdirAll E _ w3) as [[e|] w4]; simpl.
  - injection Hfn as <- <- <-. simpl. split; [done|]. right. split; [done|]. eauto.
  - apply transfer_maps in Hfn as ->. done.
Qed.

Lemma walkFn_hashes_mono st v w st' r w' h p :
  fn st v w = ((st', r), w') ->
  fileHashes st !! h = Some p -> fileHashes st' !! h = Some p.
Proof.
  intros Hfn Hh. apply walkFn_maps in Hfn.
  destruct (plan_of E targetDir st v w) as [q|].
  - destruct Hfn as (_ & Hnone & _ & ->). simpl.
    rewrite lookup_insert_ne; [done|]. intros <-. congruence.
  - destruct Hfn as (_ & [->|(_ & h' & Hnone & ->)]); [done|].
    rewrite lookup_insert_ne; [done|]. intros <-. congruence.
Qed.

Lemma Walk_hashes_mono visits st w st' r w' h p :
  Walk fn st visits w = ((st', r), w') ->
  fileHashes st !! h = Some p -> fileHashes st' !! h = Some p.
Proof.
  revert st w. induction visits as [|v rest IH]; intros st w.
  - by intros [= <- _ _].
  - simpl. unfold bind. destruct (fn st v w) as [[st1 [e|]] w1] eqn:Hfn.
    + intros [= <- _ _] Hh. eapply walkFn_hashes_mono; eauto.
    + intros HW Hh. eapply IH; [done|]. eapply walkFn_hashes_mono; eauto.
Qed.

(** A new file that the callback has handled is in [fileHashes]. *)
Lemma walkFn_records_fresh st v w st' r w' f :
  fn st v w = ((st', r), w') ->
  e_err v = None -> e_isDir v = false -> isMedia v = true ->
  files w !! e_path v = Some f -> readable E (e_path v) ->
  fileHashes st !! sha256_hex E (content f) = None ->
  fileHashes st' !! sha256_hex E (content f) = Some (e_path v).
Proof.
  intros Hfn H1 H2 H3 Hf Hrd Hnone.
  pose proof (calculateFileHash_readable _ _ _ Hf Hrd) as Hh.
  destruct (resolveDate E (e_path v) (calculateFileHash E (e_path v) w).2) as [d w3] eqn:Hr.
  rewrite Hh in Hr. simpl in Hr.
  rewrite (walkFn_fresh E _ _ _ _ _ _ _ d w3 H1 H2 H3 Hh Hnone Hr) in Hfn.
  destruct (OS.MkdirAll E _ w3) as [[e|] w4].
  - injection Hfn as <- _ _. simpl. apply lookup_insert_eq.
  - apply transfer_maps in Hfn as ->. simpl. apply lookup_insert_eq.
Qed.

End WalkFacts.

(** ** Duplicates, other files and fatal errors *)

Section WalkClaims.
Variable E : env.
Variables (targetDir : string) (dryRun : bool).

Local Abbreviation fn := (walkFn E targetDir dryRun).

(** C1. Let [v1] be the first visited image or video with some content
    (its fingerprint is not in [fileHashes] yet) and let the walk go on
    to a later visit [v2] of a file with the same bytes. Then [v2] is not
    placed: the callback reads it, prints that it is a duplicate of the
    path of [v1], and issues no call that creates, copies or renames
    anything. In a dry run nothing else happens. Otherwise [v2] is
    removed from the source; when the removal fails the error is printed.
    In all cases the callback returns no error and the walk goes on with
    the remaining visits. *)
Theorem duplicates_are_reported_and_removed
  (w : world) (l1 : list entry) (v1 : entry) (l2 : list entry) (v2 : entry)
  (st1 : maps) (w1 : world) (st1' : maps) (w1' : world) (st2 : maps) (w2 : world)
  (f1 f2 : file) :
  Walk fn (Maps ∅ ∅) l1 w = ((st1, None), w1) ->
  e_err v1 = None -> e_isDir v1 = false -> isMedia v1 = true ->
  files w1 !! e_path v1 = Some f1 -> readable E (e_path v1) ->
  fileHashes st1 !! sha256_hex E (content f1) = None ->
  fn st1 v1 w1 = ((st1', None), w1') ->
  Walk fn st1' l2 w1' = ((st2, None), w2) ->
  e_err v2 = None -> e_isDir v2 = false -> isMedia v2 = true ->
  files w2 !! e_path v2 = Some f2 -> readable E (e_path v2) ->
  content f2 = content f1 ->
  let p1 := e_path v1 in
  let p2 := e_path v2 in
  let dup := "Duplicate file found: " +:+ p2 +:+ " (duplicate of " +:+ p1 +:+ ")" in
  exists w3,
    fn st2 v2 w2 = ((st2, None), w3) /\
    (forall l3, Walk fn st2 (v2 :: l3) w2 = Walk fn st2 l3 w3) /\
    dirs w3 = dirs w2 /\
    if dryRun then
      since w2 w3 = [COpen p2; CRead p2] /\
      stdout w3 = stdout w2 ++ [dup] /\
      files w3 = files w2
    else
      since w2 w3 = [COpen p2; CRead p2; CRemove p2] /\
      match remove_err E p2 with
      | None =>
          stdout w3 = stdout w2 ++ [dup; "Deleted duplicate file: " +:+ p2] /\
          files w3 = delete p2 (files w2)
      | Some e =>
          stdout w3 = stdout w2 ++ [dup; "Error deleting file " +:+ p2 +:+ ": " +:+ e] /\
          files w3 = files w2
      end.
Proof.
  intros HW1 A1 A2 A3 Hf1 Hr1 Hnew Hv1 HW2 B1 B2 B3 Hf2 Hr2 Hsame p1 p2 dup.
  assert (Hseen : fileHashes st2 !! sha256_hex E (content f2) = Some p1).
  { rewrite Hsame. eapply Walk_hashes_mono; [exact HW2|].
    eapply walkFn_records_fresh; eauto. }
  pose proof (calculateFileHash_readable E _ _ _ Hf2 Hr2) as Hh.
  pose proof (walkFn_duplicate E targetDir dryRun st2 v2 w2 _ _ p1 B1 B2 B3 Hh Hseen) as Hfn.
  destruct (fn st2 v2 w2) as [[st3 r] w3] eqn:Hres.
  exists w3. symmetry in Hfn.
  destruct (skipDuplicate_maps E dryRun _ _ _ _ _ _ _ Hfn) as [-> ->].
  split; [done|]. split.
  { intros l3. simpl. unfold bind. by rewrite Hres. }
  subst p1 p2 dup. revert Hfn. unfold skipDuplicate. unfold_os.
  destruct dryRun; simpl.
  - intros [= <-]. simpl. split; [done|]. split; [|done].
    by apply since_app.
  - rewrite Hf2. destruct (remove_err E (e_path v2)) as [e|]; intros [= <-]; simpl.
    + split; [done|]. split; [apply since_app; simpl; by rewrite <- app_assoc|].
      by rewrite <- app_assoc.
    + split; [done|]. split; [apply since_app; simpl; by rewrite <- app_assoc|].
      by rewrite <- app_assoc.
Qed.

(** C6, as the code has it. A visited file whose lowercased extension is
    neither an image nor a video extension is not touched at all: the
    callback returns at once, without a system call (the file is not even
    opened, so no fingerprint is computed), without output and without a
    change to either map. *)
Theorem other_files_are_ignored (st : maps) (v : entry) (w : world) :
  e_err v = None -> e_isDir v = false ->
  isImageFile (extOf v) = false -> isVideoFile (extOf v) = false ->
  fn st v w = ((st, None), w).
Proof.
  intros H1 H2 Hi Hv. apply walkFn_other; [done..|].
  unfold isMedia. by rewrite Hi, Hv.
Qed.

(** C8. When the walk reaches an image or video whose fingerprint cannot
    be computed, or a new one whose directory cannot be created, the
    error of that call is what [processFiles] returns, and the world it
    returns is the one the failing call left: the visits after it are not
    processed. *)
Theorem fatal_errors_abort_the_walk
  (sourceDir : string) (w : world) (pre : list entry) (v : entry) (post : list entry)
  (st1 : maps) (w1 : world) (e : error) (wf : world) :
  Walk_visits E sourceDir = pre ++ v :: post ->
  Walk fn (Maps ∅ ∅) pre w = ((st1, None), w1) ->
  e_err v = None -> e_isDir v = false -> isMedia v = true ->
  fatal_at E targetDir st1 v w1 e wf ->
  processFiles E sourceDir targetDir dryRun w = (Some e, wf).
Proof.
  intros Hvis Hpre H1 H2 H3 Hfatal.
  unfold processFiles, bind, ret. rewrite Hvis, Walk_app, Hpre.
  destruct Hfatal as [Hh|(h & w2 & d & w3 & Hh & Hnew & Hd & Hmk)].
  - by rewrite (Walk_stops E targetDir dryRun st1 v post w1 st1 e wf
                  (walkFn_hash_failed E _ _ _ _ _ _ _ H1 H2 H3 Hh)).
  - pose proof (walkFn_fresh E targetDir dryRun _ _ _ _ _ _ _ H1 H2 H3 Hh Hnew Hd) as Hfn.
    simpl in Hfn. rewrite Hmk in Hfn.
    by rewrite (Walk_stops E targetDir dryRun st1 v post w1 _ e wf Hfn).
Qed.

End WalkClaims.

(** ** File names *)

Section Names.

Lemma append_nil (b : string) : "" +:+ b = b.
Proof. reflexivity. Qed.

Lemma append_cons (x : ascii) (a b : string) : String x a +:+ b = String x (a +:+ b).
Proof. reflexivity. Qed.

Ltac app_simpl := rewrite ?append_cons, ?append_nil; simpl.

Lemma append_assoc (a b c : string) : (a +:+ b) +:+ c = a +:+ (b +:+ c).
Proof. induction a as [|x a IH]; app_simpl; [done|]. by rewrite IH. Qed.

Lemma occurs_append c a b : Str.occurs c (a +:+ b) = Str.occurs c a || Str.occurs c b.
Proof.
  induction a as [|x a IH]; app_simpl; [done|]. by destruct (Ascii.eqb x c).
Qed.

Lemma all_digits_append a b : all_digits (a +:+ b) = all_digits a && all_digits b.
Proof.
  induction a as [|x a IH]; app_simpl; [done|]. rewrite IH. by rewrite andb_assoc.
Qed.

Lemma all_digits_zeros n : all_digits (Str.zeros n) = true.
Proof. induction n; simpl; [done|]. by rewrite IHn. Qed.

Lemma all_digits_uint d : all_digits (NilEmpty.string_of_uint d) = true.
Proof. induction d; simpl; try done; by rewrite IHd. Qed.

Lemma all_digits_padded width n : all_digits (Str.padded width n) = true.
Proof.
  unfold Str.padded, Str.decimal.
  by rewrite all_digits_append, all_digits_zeros, all_digits_uint.
Qed.

(** A digit string holds no character that is not a digit. *)
Lemma all_digits_occurs c s :
  is_digit c = false -> all_digits s = true -> Str.occurs c s = false.
Proof.
  intros Hc. induction s as [|x s IH]; simpl; [done|].
  intros [Hx Hs]%andb_true_iff. destruct (Ascii.eqb_spec x c) as [->|_]; [congruence|auto].
Qed.

(** A digit string followed by something that does not begin with a digit
    can be read back in one way only. *)
Lemma digits_then_rest x y t1 t2 :
  all_digits x = true -> all_digits y = true ->
  no_digit_ahead t1 = true -> no_digit_ahead t2 = true ->
  x +:+ t1 = y +:+ t2 -> x = y /\ t1 = t2.
Proof.
  revert y. induction x as [|a x IH]; intros [|b y]; app_simpl.
  - done.
  - intros _ [Hb _]%andb_true_iff Ht1 _ ->. simpl in Ht1. by rewrite Hb in Ht1.
  - intros [Ha _]%andb_true_iff _ _ Ht2 <-. simpl in Ht2. by rewrite Ha in Ht2.
  - intros [_ Hx]%andb_true_iff [_ Hy]%andb_true_iff Ht1 Ht2 [= -> Heq].
    destruct (IH y Hx Hy Ht1 Ht2 Heq) as [-> ->]. done.
Qed.

Lemma of_uint_D0 d : Nat.of_uint (Decimal.D0 d) = Nat.of_uint d.
Proof. reflexivity. Qed.

Lemma value_zeros k s : value (Str.zeros k +:+ s) = value s.
Proof.
  induction k as [|k IH]; app_simpl; [done|]. unfold value in *. simpl.
  destruct (NilEmpty.uint_of_string (Str.zeros k +:+ s)) as [d|];
    destruct (NilEmpty.uint_of_string s) as [d'|]; simpl in *;
    rewrite ?of_uint_D0; congruence.
Qed.

Lemma value_padded width n : value (Str.padded width n) = Some n.
Proof.
  unfold Str.padded, Str.decimal. rewrite value_zeros. unfold value.
  by rewrite NilEmpty.usu; simpl; rewrite Unsigned.of_to.
Qed.

Lemma padded_inj width n m : Str.padded width n = Str.padded width m -> n = m.
Proof.
  intros H. apply (f_equal value) in H. rewrite !value_padded in H. congruence.
Qed.

(** The extensions the callback handles begin with a dot and hold no
    separator. *)
Lemma media_ext_shape ext :
  isImageFile ext || isVideoFile ext = true ->
  no_digit_ahead ext = true /\ Str.occurs "/" ext = false /\
  Str.is_empty ext = false /\ exists r, ext = String "." r.
Proof.
  unfold isImageFile, isVideoFile.
  intros [H|H]%orb_true_iff; apply bool_decide_eq_true in H;
    repeat (apply elem_of_cons in H as [->|H]; [by eauto|]);
    by apply elem_of_nil in H.
Qed.

Lemma stamp_append d tail :
  Format_stamp d +:+ tail =
    Str.padded 2 (day d) +:+ String "-" (Str.padded 2 (month d) +:+ String "-"
      (Str.padded 4 (year d) +:+ String "-" (Str.padded 2 (hour d) +:+ String "-"
        (Str.padded 2 (minute d) +:+ String "-" (Str.padded 2 (second d) +:+ tail))))).
Proof. unfold Format_stamp. rewrite !append_assoc. by app_simpl. Qed.

(** Two stamps followed by tails that do not begin with a digit: equal
    strings have equal stamps and equal tails. *)
Lemma stamp_then_rest d1 d2 t1 t2 :
  no_digit_ahead t1 = true -> no_digit_ahead t2 = true ->
  Format_stamp d1 +:+ t1 = Format_stamp d2 +:+ t2 ->
  Format_stamp d1 = Format_stamp d2 /\ t1 = t2.
Proof.
  intros Ht1 Ht2. rewrite !stamp_append. intros H.
  do 5 (apply digits_then_rest in H as [? [= H]];
        [|apply all_digits_padded..|done|done]).
  apply digits_then_rest in H as [? ->]; [|apply all_digits_padded..|done|done].
  split; [|done]. unfold Format_stamp. congruence.
Qed.

(** The file name determines the stamp and the counter it was made of. *)
Lemma fileName_inj d1 c1 e1 d2 c2 e2 :
  isImageFile e1 || isVideoFile e1 = true ->
  isImageFile e2 || isVideoFile e2 = true ->
  fileName (Format_stamp d1) c1 e1 = fileName (Format_stamp d2) c2 e2 ->
  Format_stamp d1 = Format_stamp d2 /\ c1 = c2.
Proof.
  intros (N1 & _ & _ & r1 & ->)%media_ext_shape (N2 & _ & _ & r2 & ->)%media_ext_shape.
  unfold fileName.
  destruct (decide (0 < c1)), (decide (0 < c2)); intros H;
    apply stamp_then_rest in H as [Hs Ht]; try done.
  - split; [done|]. rewrite !append_cons, !append_nil in Ht. injection Ht as Ht.
    apply digits_then_rest in Ht as [Hp _]; [|apply all_digits_padded..|done|done].
    by apply padded_inj in Hp.
  - split; [done|]. lia.
Qed.

Lemma fileName_no_separator d c e :
  isImageFile e || isVideoFile e = true ->
  Str.occurs "/" (fileName (Format_stamp d) c e) = false /\
  Str.is_empty (fileName (Format_stamp d) c e) = false.
Proof.
  intros (_ & He & _ & r & ->)%media_ext_shape.
  assert (Hpad : forall width n, Str.occurs "/" (Str.padded width n) = false).
  { intros. apply all_digits_occurs; [done|apply all_digits_padded]. }
  assert (Hne : forall width n t, Str.is_empty (Str.padded width n +:+ String "-" t) = false).
  { intros width n t. by destruct (Str.padded width n). }
  unfold fileName. destruct (decide (0 < c)); rewrite stamp_append; split;
    rewrite ?Hne; try done; app_simpl;
    repeat (rewrite occurs_append, Hpad; simpl); rewrite ?occurs_append, ?Hpad; simpl;
    done.
Qed.

(** What follows the last separator can be read back. *)
Lemma after_last_separator x y n1 n2 :
  Str.occurs "/" n1 = false -> Str.occurs "/" n2 = false ->
  x +:+ String "/" n1 = y +:+ String "/" n2 -> n1 = n2.
Proof.
  intros H1 H2. revert y. induction x as [|a x IH]; intros [|b y]; app_simpl.
  - by intros [= ->].
  - intros [= _ Heq]. rewrite Heq, occurs_append in H1. simpl in H1.
    by rewrite orb_true_r in H1.
  - intros [= _ Heq]. rewrite <- Heq, occurs_append in H2. simpl in H2.
    by rewrite orb_true_r in H2.
  - intros [= _ Heq]. eauto.
Qed.

(** Joining a directory and a name without separator: the name can be
    read back. *)
Lemma Join_name_inj dir1 n1 dir2 n2 :
  Str.occurs "/" n1 = false -> Str.occurs "/" n2 = false ->
  Str.is_empty n1 = false -> Str.is_empty n2 = false ->
  Str.Join [dir1; n1] = Str.Join [dir2; n2] -> n1 = n2.
Proof.
  intros H1 H2 E1 E2. simpl. rewrite E1, E2. simpl. rewrite E1, E2.
  destruct (Str.is_empty dir1) eqn:D1, (Str.is_empty dir2) eqn:D2; app_simpl.
  - done.
  - intros ->. rewrite occurs_append in H1. simpl in H1. by rewrite orb_true_r in H1.
  - intros <-. rewrite occurs_append in H2. simpl in H2. by rewrite orb_true_r in H2.
  - by apply after_last_separator.
Qed.

End Names.

(** ** Plans and counters *)

Section Plans.
Variable E : env.
Variables (targetDir : string) (dryRun : bool).

Local Abbreviation fn := (walkFn E targetDir dryRun).
Local Abbreviation plans_from := (plans E targetDir dryRun).

Lemma with_stamp_app s (a b : list plan) :
  with_stamp s (a ++ b) = with_stamp s a + with_stamp s b.
Proof. unfold with_stamp. by rewrite filter_app, length_app. Qed.

Lemma with_stamp_one s (p : plan) :
  with_stamp s [p] = if decide (p_stamp p = s) then 1 else 0.
Proof.
  unfold with_stamp. rewrite filter_cons, filter_nil. by destruct (decide (p_stamp p = s)).
Qed.

(** A plan is made for an image or a video and sends it to the directory
    of its kind and date. *)
Lemma plan_of_shape st v w p :
  plan_of E targetDir st v w = Some p ->
  isImageFile (p_ext p) || isVideoFile (p_ext p) = true /\
  p_subDir p = subDirOf targetDir (p_ext p) (p_date p).
Proof.
  unfold plan_of. destruct (e_err v); [done|]. destruct (e_isDir v); [done|].
  destruct (isMedia v) eqn:Hm; [|done].
  destruct (calculateFileHash E (e_path v) w) as [[h|] w2]; [|done].
  destruct (fileHashes st !! h); [done|].
  destruct (resolveDate E (e_path v) w2) as [d w3].
  destruct (OS.MkdirAll E _ w3).1; [done|]. by intros [= <-].
Qed.

(** The callback does what the plan says: it hands the planned source and
    destination to the transfer (the move, or its announcement). *)
Lemma walkFn_carries_out_plan st v w p :
  plan_of E targetDir st v w = Some p ->
  exists st' w4, fn st v w = transfer E dryRun st' (p_src p) (p_dest p) w4.
Proof.
  unfold plan_of. destruct (e_err v) eqn:H1; [done|]. destruct (e_isDir v) eqn:H2; [done|].
  destruct (isMedia v) eqn:H3; [|done].
  destruct (calculateFileHash E (e_path v) w) as [[h|] w2] eqn:Hh; [|done].
  destruct (fileHashes st !! h) eqn:Hd; [done|].
  destruct (resolveDate E (e_path v) w2) as [d w3] eqn:Hr.
  rewrite (walkFn_fresh E _ _ _ _ _ h w2 d w3) by done.
  destruct (OS.MkdirAll E _ w3) as [[e|] w4]; [done|]. intros [= <-]. eauto.
Qed.

(** One visit keeps the counters in step with the plans. *)
Lemma walkFn_counters st v w st' r w' ps :
  fn st v w = ((st', r), w') ->
  counters_track st ps ->
  counters_track st' (ps ++ option_list (plan_of E targetDir st v w)) /\
  forall p, plan_of E targetDir st v w = Some p ->
            p_counter p = with_stamp (p_stamp p) ps.
Proof.
  intros Hfn Htr. apply walkFn_maps in Hfn.
  destruct (plan_of E targetDir st v w) as [p|]; simpl.
  - destruct Hfn as (_ & _ & Hc & ->).
    assert (Hcount : p_counter p = with_stamp (p_stamp p) ps).
    { rewrite Hc. unfold nextCounter. rewrite (Htr (p_stamp p)).
      destruct (with_stamp (p_stamp p) ps); lia. }
    split; [|by intros ? [= <-]].
    intros s. simpl. rewrite with_stamp_app, with_stamp_one.
    destruct (decide (p_stamp p = s)) as [<-|Hne].
    + rewrite lookup_insert_eq, Hcount. by rewrite Nat.add_1_r.
    + rewrite lookup_insert_ne by done. rewrite Nat.add_0_r. apply Htr.
  - destruct Hfn as [Htc _]. rewrite app_nil_r. split; [|done].
    intros s. rewrite Htc. apply Htr.
Qed.

(** Every plan of a walk drew the counter that counts the earlier plans
    with its stamp. *)
Lemma plans_counters visits st w ps0 i p :
  counters_track st ps0 ->
  (ps0 ++ plans_from st visits w) !! i = Some p ->
  length ps0 <= i ->
  p_counter p = with_stamp (p_stamp p) (take i (ps0 ++ plans_from st visits w)).
Proof.
  revert st w ps0. induction visits as [|v rest IH]; intros st w ps0 Htr Hi Hlen.
  - simpl in Hi. rewrite app_nil_r in Hi. apply lookup_lt_Some in Hi. lia.
  - simpl in *. destruct (fn st v w) as [[st' r] w'] eqn:Hfn.
    destruct (walkFn_counters _ _ _ _ _ _ _ Hfn Htr) as [Htr' Hnew].
    destruct (plan_of E targetDir st v w) as [p0|]; simpl in *.
    + destruct (decide (i = length ps0)) as [->|Hne].
      * rewrite lookup_app_r, Nat.sub_diag in Hi by done. injection Hi as <-.
        rewrite take_app_length. by apply Hnew.
      * rewrite (cons_middle p0 ps0), app_assoc in Hi |- *.
        destruct r as [e|].
        { apply lookup_lt_Some in Hi. rewrite app_nil_r, length_app in Hi.
          simpl in Hi. lia. }
        apply (IH st' w' (ps0 ++ [p0])); [done|done|].
        rewrite length_app. simpl. lia.
    + rewrite app_nil_r in Htr'. destruct r as [e|].
      { rewrite app_nil_r in Hi. apply lookup_lt_Some in Hi. lia. }
      by apply (IH st' w' ps0).
Qed.

Lemma counters_track_empty : counters_track (Maps ∅ ∅) [].
Proof. intros s. simpl. apply lookup_empty. Qed.

Lemma plans_shape visits st w i p :
  plans_from st visits w !! i = Some p ->
  isImageFile (p_ext p) || isVideoFile (p_ext p) = true /\
  p_subDir p = subDirOf targetDir (p_ext p) (p_date p).
Proof.
  revert st w i. induction visits as [|v rest IH]; intros st w i; simpl; [done|].
  destruct (fn st v w) as [[st' r] w'].
  destruct (plan_of E targetDir st v w) as [p0|] eqn:Hp; simpl.
  - destruct i as [|i]; simpl.
    + intros [= <-]. by eapply plan_of_shape.
    + destruct r; [done|]. apply IH.
  - destruct r; [done|]. apply IH.
Qed.

(** A later plan with the stamp of an earlier one drew a larger counter. *)
Lemma later_plan_counts_more (ps : list plan) i j p s :
  ps !! i = Some p -> p_stamp p = s -> i < j ->
  with_stamp s (take i ps) < with_stamp s (take j ps).
Proof.
  intros Hi Hs Hij.
  assert (Hsplit : take j ps = take i ps ++ p :: drop (S i) (take j ps)).
  { rewrite <- (take_drop_middle (take j ps) i p) at 1.
    - by rewrite take_take, Nat.min_l by lia.
    - by rewrite lookup_take_lt. }
  rewrite Hsplit, with_stamp_app.
  change (p :: drop (S i) (take j ps)) with ([p] ++ drop (S i) (take j ps)).
  rewrite with_stamp_app, with_stamp_one, decide_True by done. lia.
Qed.

End Plans.

(** ** Directories *)

Section Directories.

Lemma padded_not_empty width n : 0 < width -> Str.is_empty (Str.padded width n) = false.
Proof.
  intros Hw. unfold Str.padded. destruct (Str.decimal n) as [|c r]; simpl.
  - rewrite Nat.sub_0_r. by destruct width; [lia|].
  - by destruct (width - S (String.length r)).
Qed.

Lemma image_is_no_video ext : isVideoFile ext = true -> isImageFile ext = false.
Proof.
  unfold isVideoFile. intros H. apply bool_decide_eq_true in H.
  repeat (apply elem_of_cons in H as [->|H]; [done|]). by apply elem_of_nil in H.
Qed.

Lemma Join_four t c k Y M :
  Str.is_empty Y = false -> Str.is_empty M = false ->
  Str.Join [t; String c k; Y; M] =
    (if Str.is_empty t then "" else t +:+ "/") +:+ String c (k +:+ "/" +:+ Y +:+ "/" +:+ M).
Proof.
  intros HY HM. destruct Y as [|y Y]; [done|]. destruct M as [|m M]; [done|].
  simpl. rewrite !append_cons. simpl. rewrite !append_nil.
  destruct (Str.is_empty t); [done|].
  by rewrite append_assoc, append_cons, append_nil.
Qed.

(** Images and videos never share a directory. *)
Lemma subDirOf_kinds_differ targetDir e1 d1 e2 d2 :
  isImageFile e1 = true -> isVideoFile e2 = true ->
  subDirOf targetDir e1 d1 <> subDirOf targetDir e2 d2.
Proof.
  intros H1 H2. unfold subDirOf. rewrite H1, (image_is_no_video _ H2), H2.
  unfold Format_year, Format_month.
  rewrite !Join_four by (apply padded_not_empty; lia).
  by intros ?%String.app_inj.
Qed.

End Directories.

(** ** Dry runs *)

Section DryRun.
Variable E : env.
Variable targetDir : string.

Lemma calculateFileHash_files path w :
  files (calculateFileHash E path w).2 = files w /\
  dirs (calculateFileHash E path w).2 = dirs w.
Proof.
  unfold calculateFileHash. unfold_os.
  destruct (files w !! path); [|done].
  destruct (open_err E path); [done|]. simpl.
  destruct (files w !! path); [|done]. by destruct (read_err E path).
Qed.

Lemma getFileDate_files path w :
  files (getFileDate E path w).2 = files w /\ dirs (getFileDate E path w).2 = dirs w.
Proof.
  unfold getFileDate, getImageDate, getVideoDate, getFileCreationDate, Decode.
  destruct (isImageFile _); [|destruct (isVideoFile _)]; unfold_os.
  - destruct (files w !! path); [|done].
    destruct (open_err E path); [done|]. simpl.
    destruct (files w !! path); [|done].
    destruct (read_err E path); [done|]. simpl.
    destruct (exif_Decode E _) as [[[]]|]; done.
  - destruct (files w !! path); [|done]. by destruct (stat_err E path).
  - destruct (files w !! path); [|done]. by destruct (stat_err E path).
Qed.

Lemma resolveDate_files path w :
  files (resolveDate E path w).2 = files w /\ dirs (resolveDate E path w).2 = dirs w.
Proof.
  unfold resolveDate, bind.
  pose proof (getFileDate_files path w) as Hg.
  by destruct (getFileDate E path w) as [[d|e] w1]; unfold_os.
Qed.

(** In a dry run a visit leaves every file as it was: the only call that
    changes the file system is the creation of the directory. *)
Lemma dry_visit_keeps_files st v w :
  files (walkFn E targetDir true st v w).2 = files w.
Proof.
  destruct (e_err v) as [e|] eqn:H1; [by rewrite (walkFn_error E _ _ _ _ e)|].
  destruct (e_isDir v) eqn:H2; [by rewrite walkFn_dir|].
  destruct (isMedia v) eqn:H3; [|by rewrite walkFn_other].
  pose proof (calculateFileHash_files (e_path v) w) as [Hh _].
  destruct (calculateFileHash E (e_path v) w) as [[h|e] w2] eqn:Hc; simpl in Hh.
  2:{ by rewrite (walkFn_hash_failed E _ _ _ _ _ e w2). }
  destruct (fileHashes st !! h) as [existing|] eqn:Hd.
  { by rewrite (walkFn_duplicate E _ _ _ _ _ h w2 existing). }
  pose proof (resolveDate_files (e_path v) w2) as [Hr _].
  destruct (resolveDate E (e_path v) w2) as [d w3] eqn:Hrd; simpl in Hr.
  rewrite (walkFn_fresh E _ _ _ _ _ h w2 d w3) by done.
  pose proof (MkdirAll_files E (subDirOf targetDir (extOf v) d) w3) as Hm.
  destruct (OS.MkdirAll E _ w3) as [[e|] w4]; simpl in *; congruence.
Qed.

Lemma dry_walk_keeps_files visits st w :
  files (Walk (walkFn E targetDir true) st visits w).2 = files w.
Proof.
  revert st w. induction visits as [|v rest IH]; intros st w; [done|].
  simpl. unfold bind. pose proof (dry_visit_keeps_files st v w) as Hv.
  destruct (walkFn E targetDir true st v w) as [[st' [e|]] w']; simpl in *; [done|].
  by rewrite IH.
Qed.

Lemma calculateFileHash_stdout path w :
  stdout (calculateFileHash E path w).2 = stdout w.
Proof.
  unfold calculateFileHash. unfold_os.
  destruct (files w !! path); [|done].
  destruct (open_err E path); [done|]. simpl.
  destruct (files w !! path); [|done]. by destruct (read_err E path).
Qed.

Lemma getFileDate_stdout path w : stdout (getFileDate E path w).2 = stdout w.
Proof.
  unfold getFileDate, getImageDate, getVideoDate, getFileCreationDate, Decode.
  destruct (isImageFile _); [|destruct (isVideoFile _)]; unfold_os.
  - destruct (files w !! path); [|done].
    destruct (open_err E path); [done|]. simpl.
    destruct (files w !! path); [|done].
    destruct (read_err E path); [done|]. simpl.
    destruct (exif_Decode E _) as [[[]]|]; done.
  - destruct (files w !! path); [|done]. by destruct (stat_err E path).
  - destruct (files w !! path); [|done]. by destruct (stat_err E path).
Qed.

Lemma resolveDate_stdout path w :
  exists l, stdout (resolveDate E path w).2 = stdout w ++ l.
Proof.
  unfold resolveDate, bind.
  pose proof (getFileDate_stdout path w) as Hg.
  destruct (getFileDate E path w) as [[d|e] w1]; unfold_os.
  - exists []. by rewrite app_nil_r.
  - rewrite Hg. eauto.
Qed.

(** In a dry run a visit only adds lines to the output, and the line for
    its plan is among them. *)
Lemma dry_visit_announces st v w :
  exists l, stdout (walkFn E targetDir true st v w).2 = stdout w ++ l /\
            forall p, plan_of E targetDir st v w = Some p -> announcement p ∈ l.
Proof.
  unfold plan_of.
  destruct (e_err v) as [e|] eqn:H1.
  { rewrite (walkFn_error E _ _ _ _ e) by done. exists []. by rewrite app_nil_r. }
  destruct (e_isDir v) eqn:H2.
  { rewrite walkFn_dir by done. exists []. by rewrite app_nil_r. }
  destruct (isMedia v) eqn:H3.
  2:{ rewrite walkFn_other by done. exists []. by rewrite app_nil_r. }
  pose proof (calculateFileHash_stdout (e_path v) w) as Hh.
  destruct (calculateFileHash E (e_path v) w) as [[h|e] w2] eqn:Hc; simpl in Hh.
  2:{ rewrite (walkFn_hash_failed E _ _ _ _ _ e w2) by done.
      exists []. by rewrite app_nil_r. }
  destruct (fileHashes st !! h) as [existing|] eqn:Hd.
  { rewrite (walkFn_duplicate E _ _ _ _ _ h w2 existing) by done.
    unfold skipDuplicate. unfold_os. rewrite Hh. eexists. split; [done|]. by intros p. }
  pose proof (resolveDate_stdout (e_path v) w2) as [l Hr].
  destruct (resolveDate E (e_path v) w2) as [d w3] eqn:Hrd; simpl in Hr.
  rewrite (walkFn_fresh E _ _ _ _ _ h w2 d w3) by done.
  unfold OS.MkdirAll, OS.log, bind. simpl.
  destruct (mkdir_err E (subDirOf targetDir (extOf v) d)) as [e|]; simpl.
  - exists l. by rewrite Hr, Hh.
  - unfold transfer. unfold_os. rewrite Hr, Hh, <- app_assoc.
    eexists. split; [done|]. intros p [= <-].
    apply elem_of_app. right. by apply list_elem_of_singleton.
Qed.

Lemma dry_walk_announces visits st w :
  exists l, stdout (Walk (walkFn E targetDir true) st visits w).2 = stdout w ++ l /\
            forall p, p ∈ plans E targetDir true st visits w -> announcement p ∈ l.
Proof.
  revert st w. induction visits as [|v rest IH]; intros st w.
  { exists []. split; [by rewrite app_nil_r|]. by intros p ?%elem_of_nil. }
  simpl. unfold bind.
  destruct (dry_visit_announces st v w) as (l1 & Hl1 & Hp1).
  destruct (walkFn E targetDir true st v w) as [[st' r] w'] eqn:Hfn. simpl in Hl1.
  destruct r as [e|]; simpl.
  - exists l1. split; [done|]. rewrite app_nil_r.
    intros p Hp. apply Hp1. destruct (plan_of E targetDir st v w); simpl in Hp.
    + by apply list_elem_of_singleton in Hp as ->.
    + by apply elem_of_nil in Hp.
  - destruct (IH st' w') as (l2 & Hl2 & Hp2).
    exists (l1 ++ l2). split; [by rewrite Hl2, Hl1, app_assoc|].
    intros p [Hp|Hp]%elem_of_app; apply elem_of_app.
    + left. apply Hp1. destruct (plan_of E targetDir st v w); simpl in Hp.
      * by apply list_elem_of_singleton in Hp as ->.
      * by apply elem_of_nil in Hp.
    + right. by apply Hp2.
Qed.

(** An image whose metadata cannot be decoded is dated by the wall clock:
    the failure comes back with its cause, and the modification time is
    not asked for. *)
Lemma undecodable_image_is_dated_now path w f cause :
  isImageFile (Str.ToLower (Str.Ext path)) = true ->
  files w !! path = Some f -> readable E path ->
  exif_Decode E (content f) = Err cause ->
  (getFileDate E path w).1
    = Err ("error extracting date from image " +:+ path +:+ ": " +:+
           "error extracting EXIF data from image " +:+ path +:+ ": " +:+ cause) /\
  (resolveDate E path w).1 = wallClock E (ticks w) /\
  since w (resolveDate E path w).2 = [COpen path; CRead path; CNow].
Proof.
  intros Hi Hf [Ho Hr] Hd.
  unfold resolveDate, getFileDate, getImageDate, Decode. rewrite Hi. unfold_os.
  rewrite Hf, Ho. simpl. rewrite Hf, Hr. simpl. rewrite Hd. simpl.
  split; [done|]. split; [done|]. apply since_app. simpl. by rewrite <- !app_assoc.
Qed.

(** Every plan of a dry run is announced in the output of the run. *)
Lemma dry_run_announces_plans sourceDir w p :
  p ∈ run_plans E sourceDir targetDir true w ->
  announcement p ∈ stdout (processFiles E sourceDir targetDir true w).2.
Proof.
  intros Hp. unfold processFiles, bind, ret.
  destruct (dry_walk_announces (Walk_visits E sourceDir) (Maps ∅ ∅) w) as (l & Hl & Hin).
  destruct (Walk _ _ _ w) as [r w']. simpl in *.
  rewrite Hl. apply elem_of_app. right. by apply Hin.
Qed.

End DryRun.


(** ** Names and destinations of a run *)

Section PlanClaims.
Variable E : env.
Variables (sourceDir targetDir : string) (dryRun : bool).

Local Abbreviation the_plans w := (run_plans E sourceDir targetDir dryRun w).

(** C3. In a run, a file that is placed after [k] earlier files with the
    same formatted timestamp is given the counter [k]: the first gets the
    bare stamp and its extension, the second the suffix -01, the third
    -02, and the one after [k] others the suffix made of [k] padded to two
    digits, in the order the files are processed. The name is the last
    element of the destination, which a dry run prints. *)
Theorem same_stamp_names_are_numbered_in_order (w : world) (i : nat) (p : plan) :
  the_plans w !! i = Some p ->
  let k := with_stamp (p_stamp p) (take i (the_plans w)) in
  p_counter p = k /\
  p_name p = match k with
             | O => p_stamp p +:+ p_ext p
             | S _ => p_stamp p +:+ "-" +:+ Str.padded 2 k +:+ p_ext p
             end /\
  (k = 1 -> p_name p = p_stamp p +:+ "-01" +:+ p_ext p) /\
  (k = 2 -> p_name p = p_stamp p +:+ "-02" +:+ p_ext p) /\
  p_dest p = Str.Join [p_subDir p; p_name p] /\
  (dryRun = true ->
   announcement p ∈ stdout (processFiles E sourceDir targetDir dryRun w).2).
Proof.
  intros Hi k.
  assert (Hk : p_counter p = k).
  { apply (plans_counters E targetDir dryRun _ (Maps ∅ ∅) w [] i p);
      [apply counters_track_empty|done|simpl; lia]. }
  assert (Hname : p_name p = match k with
                             | O => p_stamp p +:+ p_ext p
                             | S _ => p_stamp p +:+ "-" +:+ Str.padded 2 k +:+ p_ext p
                             end).
  { unfold p_name, fileName. rewrite Hk. destruct k; [done|].
    by rewrite decide_True by lia. }
  split; [done|]. split; [done|]. rewrite Hname.
  split; [by intros ->|]. split; [by intros ->|]. split; [by rewrite <- Hname|].
  intros Hdry. revert Hi. rewrite Hdry. intros Hi.
  apply dry_run_announces_plans. apply list_elem_of_lookup. eauto.
Qed.

(** C4. In a run, two files with distinct fingerprints that are both given
    a destination are given distinct destinations. *)
Theorem distinct_files_get_distinct_destinations (w : world) (i j : nat) (p q : plan) :
  the_plans w !! i = Some p ->
  the_plans w !! j = Some q ->
  p_hash p <> p_hash q ->
  p_dest p <> p_dest q.
Proof.
  assert (Hlt : forall i j p q,
            the_plans w !! i = Some p -> the_plans w !! j = Some q -> i < j ->
            p_dest p <> p_dest q).
  { clear i j p q. intros i j p q Hi Hj Hij Hdest.
    destruct (plans_shape E targetDir dryRun _ _ _ _ _ Hi) as [Mp _].
    destruct (plans_shape E targetDir dryRun _ _ _ _ _ Hj) as [Mq _].
    destruct (fileName_no_separator (p_date p) (p_counter p) (p_ext p) Mp) as [Sp Ep].
    destruct (fileName_no_separator (p_date q) (p_counter q) (p_ext q) Mq) as [Sq Eq].
    apply Join_name_inj in Hdest; [|done..].
    apply fileName_inj in Hdest as [Hs Hc]; [|done..].
    pose proof (plans_counters E targetDir dryRun _ (Maps ∅ ∅) w [] i p
                  (counters_track_empty) Hi (Nat.le_0_l _)) as Cp.
    pose proof (plans_counters E targetDir dryRun _ (Maps ∅ ∅) w [] j q
                  (counters_track_empty) Hj (Nat.le_0_l _)) as Cq.
    pose proof (later_plan_counts_more _ i j p (p_stamp q) Hi Hs Hij) as Hmore.
    simpl in Cp, Cq. unfold p_stamp, run_plans in *. rewrite Hs in Cp. lia. }
  intros Hi Hj Hne.
  destruct (Nat.lt_trichotomy i j) as [Hij|[->|Hji]].
  - by eapply Hlt.
  - congruence.
  - intros Heq. by eapply (Hlt j i q p).
Qed.

(** C10. The counter is looked up by the formatted timestamp alone. When
    an image and a video of one run have the same stamp, they go to
    different directories, and still the one processed later draws from
    the counter the earlier one started: its counter counts every earlier
    file with that stamp, of either kind, so it is positive and the name
    carries a numeric suffix. *)
Theorem counter_is_keyed_by_stamp_alone (w : world) (i j : nat) (p q : plan) :
  the_plans w !! i = Some p ->
  the_plans w !! j = Some q ->
  i < j ->
  (isImageFile (p_ext p) = true /\ isVideoFile (p_ext q) = true) \/
  (isVideoFile (p_ext p) = true /\ isImageFile (p_ext q) = true) ->
  p_stamp p = p_stamp q ->
  p_subDir p <> p_subDir q /\
  p_counter q = with_stamp (p_stamp q) (take j (the_plans w)) /\
  0 < p_counter q /\
  p_name q = p_stamp q +:+ "-" +:+ Str.padded 2 (p_counter q) +:+ p_ext q.
Proof.
  intros Hi Hj Hij Hkinds Hs.
  destruct (plans_shape E targetDir dryRun _ _ _ _ _ Hi) as [_ Dp].
  destruct (plans_shape E targetDir dryRun _ _ _ _ _ Hj) as [_ Dq].
  pose proof (plans_counters E targetDir dryRun _ (Maps ∅ ∅) w [] j q
                (counters_track_empty) Hj (Nat.le_0_l _)) as Cq.
  pose proof (later_plan_counts_more _ i j p (p_stamp q) Hi Hs Hij) as Hmore.
  simpl in Cq. unfold run_plans in *.
  assert (Hpos : 0 < p_counter q) by lia.
  split; [|split; [done|split; [done|]]].
  - rewrite Dp, Dq. destruct Hkinds as [[Hp Hq]|[Hp Hq]].
    + by apply subDirOf_kinds_differ.
    + intros Heq. symmetry in Heq. revert Heq. by apply subDirOf_kinds_differ.
  - unfold p_name, fileName. by rewrite decide_True.
Qed.

End PlanClaims.

(** ** The sample runs *)

Section Samples.
Import Demo.

(** Witness of C1: in the plain run [src/b.jpg] has the bytes of
    [src/a.jpg]; it is reported and removed, and nothing is placed. *)
Lemma duplicates_are_reported_and_removed_witness :
  let st2 := (after plain false [Entry "src" true None; visit "src/a.jpg"]).1 in
  let w2 := (after plain false [Entry "src" true None; visit "src/a.jpg"]).2 in
  exists w3,
    walkFn plain "dst" false st2 (visit "src/b.jpg") w2 = ((st2, None), w3) /\
    since w2 w3 = [COpen "src/b.jpg"; CRead "src/b.jpg"; CRemove "src/b.jpg"] /\
    stdout w3 = stdout w2 ++ ["Duplicate file found: src/b.jpg (duplicate of src/a.jpg)";
                              "Deleted duplicate file: src/b.jpg"] /\
    files w3 = delete "src/b.jpg" (files w2).
Proof.
  intros st2 w2.
  destruct (duplicates_are_reported_and_removed plain "dst" false tree
              [Entry "src" true None] (visit "src/a.jpg") [] (visit "src/b.jpg")
              (Maps ∅ ∅) tree st2 w2 st2 w2
              (File "IMG-one" modified) (File "IMG-one" modified))
    as (w3 & Hfn & _ & _ & Hcalls & Hout & Hfiles);
    try (vm_compute; reflexivity); try (split; reflexivity).
  exists w3. auto.
Defined.

(** Witness of C6 as amended: the note is left alone. *)
Lemma other_files_are_ignored_witness :
  walkFn plain "dst" false (Maps ∅ ∅) (visit "src/notes.txt") tree
  = ((Maps ∅ ∅, None), tree).
Proof. apply other_files_are_ignored; reflexivity. Defined.

(** Witness of C8: the run stops at the file that cannot be opened, and
    at the directory that cannot be created. *)
Lemma fatal_errors_abort_the_walk_witness :
  (processFiles unreadable "src" "dst" false tree).1
    = Some "open src/c.jpg: permission denied" /\
  (processFiles read_only "src" "dst" false tree).1
    = Some "mkdir dst/images: read-only file system".
Proof.
  split.
  - pose (pre := [Entry "src" true None; visit "src/a.jpg"; visit "src/b.jpg"]).
    rewrite (fatal_errors_abort_the_walk unreadable "dst" false "src" tree
               pre (visit "src/c.jpg")
               [visit "src/d.png"; visit "src/e.mp4"; visit "src/f.jpg"; visit "src/notes.txt"]
               (after unreadable false pre).1 (after unreadable false pre).2
               "open src/c.jpg: permission denied"
               (calculateFileHash unreadable "src/c.jpg" (after unreadable false pre).2).2);
      [reflexivity|reflexivity|vm_compute; reflexivity|reflexivity..|].
    left. vm_compute. reflexivity.
  - pose (pre := [Entry "src" true None; visit "src/a.jpg"; visit "src/b.jpg";
                  visit "src/c.jpg"]).
    pose (w1 := (after read_only false pre).2).
    pose (w2 := (calculateFileHash read_only "src/d.png" w1).2).
    pose (w3 := (resolveDate read_only "src/d.png" w2).2).
    rewrite (fatal_errors_abort_the_walk read_only "dst" false "src" tree
               pre (visit "src/d.png")
               [visit "src/e.mp4"; visit "src/f.jpg"; visit "src/notes.txt"]
               (after read_only false pre).1 w1
               "mkdir dst/images: read-only file system"
               (OS.MkdirAll read_only "dst/images/2026/10" w3).2);
      [reflexivity|reflexivity|vm_compute; reflexivity|reflexivity..|].
    right. exists "sha256:PNG", w2, (clock 0), w3.
    repeat split; vm_compute; reflexivity.
Defined.

(** Witness of C9: on a full disk the copy stops after two bytes, which
    stay at the destination while the source is kept. *)
Lemma failed_copy_leaves_partial_destination_witness :
  exists w',
    moveFile full_disk "src/a.jpg" "dst/images/2023/05/a.jpg" tree
      = (Some "no space left on device", w') /\
    files w' !! "src/a.jpg" = Some (File "IMG-one" modified) /\
    content <$> files w' !! "dst/images/2023/05/a.jpg" = Some "IM" /\
    since tree w' = [CMkdirAll "dst/images/2023/05";
                     CRename "src/a.jpg" "dst/images/2023/05/a.jpg";
                     COpen "src/a.jpg"; CCreate "dst/images/2023/05/a.jpg";
                     CCopy "src/a.jpg" "dst/images/2023/05/a.jpg"].
Proof.
  apply (failed_copy_leaves_partial_destination full_disk
           "src/a.jpg" "dst/images/2023/05/a.jpg" tree (File "IMG-one" modified)
           "invalid cross-device link" 2 "no space left on device");
    vm_compute; reflexivity.
Defined.

(** Witness of C3: [src/e.mp4] is the third file placed with its stamp. *)
Lemma same_stamp_names_are_numbered_in_order_witness :
  p_name plan_e = "01-05-2023-10-00-00-02.mp4" /\
  "Dry-run: File would be moved and renamed: src/e.mp4 -> dst/videos/2023/05/01-05-2023-10-00-00-02.mp4"
    ∈ stdout (processFiles plain "src" "dst" true tree).2.
Proof.
  destruct (same_stamp_names_are_numbered_in_order plain "src" "dst" true tree 3 plan_e)
    as (_ & _ & _ & Hname & _ & Hout); [vm_compute; reflexivity|].
  split; [apply Hname; vm_compute; reflexivity|by apply Hout].
Defined.

(** Witness of C4: [src/a.jpg] and [src/c.jpg] go to different paths. *)
Lemma distinct_files_get_distinct_destinations_witness :
  p_dest plan_a <> p_dest plan_c.
Proof.
  apply (distinct_files_get_distinct_destinations plain "src" "dst" false tree 0 1);
    [vm_compute; reflexivity|vm_compute; reflexivity|discriminate].
Defined.

(** Witness of C10: the video [src/e.mp4] is alone in its directory and
    still numbered after the images with its stamp. *)
Lemma counter_is_keyed_by_stamp_alone_witness :
  p_subDir plan_a <> p_subDir plan_e /\
  p_counter plan_e = with_stamp (p_stamp plan_e) (take 3 (run_plans plain "src" "dst" false tree)) /\
  0 < p_counter plan_e /\
  p_name plan_e = p_stamp plan_e +:+ "-" +:+ Str.padded 2 (p_counter plan_e) +:+ p_ext plan_e.
Proof.
  apply (counter_is_keyed_by_stamp_alone plain "src" "dst" false tree 0 3);
    [vm_compute; reflexivity|vm_compute; reflexivity|lia|left; split; reflexivity
    |reflexivity].
Defined.

End Samples.

(** ** Findings on the sample runs *)

Section Findings.
Import Demo.

(** C2, on the code. A dry run over a source holding the single image
    [src/a.jpg] leaves the files alone but creates the directory
    [dst/images/2023/05] and its missing ancestors: the call to
    [os.MkdirAll] at line 119 is issued whatever the flag says. *)
Theorem dry_run_creates_directories :
  let E := env_of [visit "src/a.jpg"] never in
  let w' := (processFiles E "src" "dst" true tree).2 in
  (processFiles E "src" "dst" true tree).1 = None /\
  files w' = files tree /\
  filter mutating (since tree w') = [CMkdirAll "dst/images/2023/05"] /\
  ("dst/images/2023/05" ∉ dirs tree) /\
  dirs w' = dirs tree ∪ {["dst/images"; "dst/images/2023"; "dst/images/2023/05"]}.
Proof.
  intros E w'. split; [by vm_compute|]. split; [by vm_compute|].
  split; [by vm_compute|]. split; [|by vm_compute].
  apply (bool_decide_unpack _). by vm_compute.
Qed.

(** C5, on the code. [src/d.png] holds no readable metadata and was
    modified in January 2020. The resolver reports the failure with its
    cause (EOF), but the callback then takes the current time (October
    2026) and never asks for the modification time: no [os.Stat] is
    issued and the file is filed under 2026/10. *)
Theorem exif_failure_falls_back_to_wall_clock :
  let E := env_of [visit "src/d.png"] never in
  let w' := (processFiles E "src" "dst" true tree).2 in
  modTime <$> files tree !! "src/d.png" = Some (Time 2020 1 15 8 30 0 0) /\
  wallClock E 0 = Time 2026 10 31 12 0 0 0 /\
  (getFileDate E "src/d.png" tree).1
    = Err ("error extracting date from image src/d.png: "
           +:+ "error extracting EXIF data from image src/d.png: EOF") /\
  stdout w' =
    ["Error extracting date for file src/d.png: error extracting date from image src/d.png: error extracting EXIF data from image src/d.png: EOF";
     "Dry-run: File would be moved and renamed: src/d.png -> dst/images/2026/10/31-10-2026-12-00-00.png"] /\
  since tree w' = [COpen "src/d.png"; CRead "src/d.png"; COpen "src/d.png";
                   CRead "src/d.png"; CNow; CMkdirAll "dst/images/2026/10"].
Proof. intros E w'. repeat split; by vm_compute. Qed.

(** C6, as stated, fails: the note [src/notes.txt] is not read and its
    fingerprint is never known, although [src/a.jpg] holds the same
    bytes. *)
Lemma other_kinds_are_not_hashed : ~ other_kinds_are_hashed.
Proof.
  intros H.
  destruct (H plain "dst" false (Maps ∅ ∅) (visit "src/notes.txt") tree
              (File "IMG-one" modified)) as (Hread & _ & _);
    [reflexivity| reflexivity| reflexivity| reflexivity| reflexivity| by split|].
  rewrite walkFn_other in Hread by reflexivity.
  unfold since in Hread. rewrite drop_all in Hread. by apply elem_of_nil in Hread.
Qed.

End Findings.

(** ** More on the transfer *)

Section TransferMore.
Variable E : env.

(** Whatever [moveFile] does, it only ever writes to its two paths, and it
    prints nothing. *)
Lemma moveFile_frame src dest w q :
  q <> src -> q <> dest ->
  files (moveFile E src dest w).2 !! q = files w !! q /\
  stdout (moveFile E src dest w).2 = stdout w.
Proof.
  intros Hs Hd. unfold moveFile, copyFile. unfold_os.
  destruct (mkdir_err E (Str.Dir dest)); simpl; [done|].
  destruct (files w !! src) as [f|] eqn:Hsrc; simpl.
  - destruct (decide (src = dest)); simpl; [done|].
    destruct (rename_err E src dest); simpl.
    + rewrite Hsrc. destruct (open_err E src); simpl; [done|].
      destruct (create_err E dest); simpl; [done|].
      rewrite (lookup_insert_ne _ dest src) by congruence. rewrite Hsrc.
      destruct (copy_err E src dest) as [[k ec]|]; simpl.
      * by rewrite !(lookup_insert_ne _ dest q) by congruence.
      * rewrite !(lookup_insert_ne _ dest src) by congruence. rewrite Hsrc.
        destruct (remove_err E src); simpl.
        -- by rewrite !(lookup_insert_ne _ dest q) by congruence.
        -- rewrite lookup_delete_ne by congruence.
           by rewrite !(lookup_insert_ne _ dest q) by congruence.
    + rewrite lookup_insert_ne by congruence. by rewrite lookup_delete_ne by congruence.
  - by rewrite Hsrc.
Qed.

(** A move that reports success has moved the bytes. *)
Lemma moveFile_done src dest w w' :
  src <> dest ->
  moveFile E src dest w = (None, w') ->
  exists f, files w !! src = Some f /\
            files w' !! src = None /\
            content <$> files w' !! dest = Some (content f).
Proof.
  intros Hne. unfold moveFile, copyFile. unfold_os.
  destruct (mkdir_err E (Str.Dir dest)); simpl; [done|].
  destruct (files w !! src) as [f|] eqn:Hsrc; simpl.
  - destruct (decide (src = dest)); simpl; [done|].
    destruct (rename_err E src dest); simpl.
    + rewrite Hsrc. destruct (open_err E src); simpl; [done|].
      destruct (create_err E dest); simpl; [done|].
      rewrite (lookup_insert_ne _ dest src) by congruence. rewrite Hsrc.
      destruct (copy_err E src dest) as [[k ec]|]; simpl; [done|].
      rewrite !(lookup_insert_ne _ dest src) by congruence. rewrite Hsrc.
      destruct (remove_err E src); simpl; [done|].
      intros [= <-]. simpl. exists f. split; [done|].
      rewrite lookup_delete_eq. rewrite lookup_delete_ne by congruence.
      by rewrite lookup_insert_eq.
    + intros [= <-]. simpl. exists f. split; [done|].
      rewrite lookup_insert_ne by congruence. rewrite lookup_delete_eq.
      by rewrite lookup_insert_eq.
  - by rewrite Hsrc.
Qed.

End TransferMore.

Section TransferProperties.
Variable E : env.

(** X1. A move to another path that reports success has relocated the
    file: the source existed, it is gone, and the destination holds its
    bytes, whatever was at the destination before and whether the rename
    or the copy did it. *)
Theorem successful_move_relocates_the_bytes (src dest : string) (w w' : world) :
  src <> dest ->
  moveFile E src dest w = (None, w') ->
  exists f, files w !! src = Some f /\
            files w' !! src = None /\
            content <$> files w' !! dest = Some (content f).
Proof. apply moveFile_done. Qed.

(** X2. When the rename fails, the copy succeeds and the removal of the
    source fails, [moveFile] returns the error of the removal and the
    bytes are at both paths. *)
Theorem failed_removal_leaves_both_copies
  (src dest : string) (w : world) (f : file) (rn e : error) :
  files w !! src = Some f ->
  mkdir_err E (Str.Dir dest) = None ->
  (OS.Rename E src dest w).1 = Some rn ->
  open_err E src = None ->
  create_err E dest = None ->
  copy_err E src dest = None ->
  remove_err E src = Some e ->
  exists w', moveFile E src dest w = (Some e, w') /\
    files w' !! src = Some f /\
    content <$> files w' !! dest = Some (content f) /\
    since w w' = [CMkdirAll (Str.Dir dest); CRename src dest; COpen src;
                  CCreate dest; CCopy src dest; CRemove src].
Proof.
  intros Hs Hmk Hrn Hop Hcr Hcp Hrm.
  assert (Hne : src <> dest).
  { revert Hrn. unfold_os. rewrite Hs. by destruct (decide (src = dest)). }
  assert (Hre : exists e', rename_err E src dest = Some e').
  { revert Hrn. unfold_os. rewrite Hs. destruct (decide (src = dest)); [done|].
    destruct (rename_err E src dest); [eauto|done]. }
  destruct Hre as [e' Hre]. clear Hrn.
  unfold moveFile, copyFile. unfold_os.
  rewrite Hmk. simpl. rewrite Hs. destruct (decide (src = dest)); [done|].
  rewrite Hre. simpl. rewrite Hs, Hop. simpl. rewrite Hcr. simpl.
  rewrite lookup_insert_ne by congruence. rewrite Hs, Hcp. simpl.
  rewrite !(lookup_insert_ne _ dest src) by congruence. rewrite Hs, Hrm.
  eexists. split; [reflexivity|]. simpl.
  rewrite !lookup_insert_eq. rewrite !(lookup_insert_ne _ dest src) by congruence.
  split; [done|]. split; [done|].
  apply since_app. simpl. by rewrite <- !app_assoc.
Qed.

(** X3. Whether it succeeds or fails, [moveFile] leaves every file at a
    path other than its source and its destination as it was, and prints
    nothing. *)
Theorem moveFile_touches_only_its_paths (src dest : string) (w : world) (q : string) :
  q <> src -> q <> dest ->
  files (moveFile E src dest w).2 !! q = files w !! q /\
  stdout (moveFile E src dest w).2 = stdout w.
Proof. apply moveFile_frame. Qed.

End TransferProperties.

(** ** Fingerprints and dates *)

Section Reading.
Variable E : env.

Lemma calculateFileHash_ok path w h w2 :
  calculateFileHash E path w = (Ok h, w2) ->
  exists f, files w !! path = Some f /\ readable E path /\
            h = sha256_hex E (content f) /\ files w2 = files w.
Proof.
  unfold calculateFileHash, readable. unfold_os.
  destruct (files w !! path) as [f|] eqn:Hf; [|done].
  destruct (open_err E path) eqn:Ho; [done|]. simpl. rewrite Hf.
  destruct (read_err E path) eqn:Hr; [done|]. intros [= <- <-].
  exists f. by repeat split.
Qed.

(** X4. [calculateFileHash] returns a fingerprint exactly when the file
    exists and can be opened and read, and then it is the digest of the
    bytes the file holds at that moment; in every case the files, the
    directories and the output are left as they were. *)
Theorem calculateFileHash_reads_the_current_bytes (path : string) (w : world) (h : string) :
  ((calculateFileHash E path w).1 = Ok h <->
   exists f, files w !! path = Some f /\ readable E path /\
             h = sha256_hex E (content f)) /\
  files (calculateFileHash E path w).2 = files w /\
  dirs (calculateFileHash E path w).2 = dirs w /\
  stdout (calculateFileHash E path w).2 = stdout w.
Proof.
  split; [|split; [apply calculateFileHash_files|split;
                   [apply calculateFileHash_files|apply calculateFileHash_stdout]]].
  split.
  - destruct (calculateFileHash E path w) as [r w2] eqn:Hc. simpl. intros ->.
    destruct (calculateFileHash_ok _ _ _ _ Hc) as (f & ? & ? & ? & _). eauto.
  - intros (f & Hf & Hr & ->). by rewrite (calculateFileHash_readable E _ _ _ Hf Hr).
Qed.

(** X5. For an image whose metadata decodes and carries a date, the date
    used is that date, whatever the modification time of the file is:
    the file is opened and read, and neither [os.Stat] nor the clock is
    asked. *)
Theorem image_is_dated_by_its_metadata
  (path : string) (w : world) (f : file) (x : exif) (d : time) :
  isImageFile (Str.ToLower (Str.Ext path)) = true ->
  files w !! path = Some f -> readable E path ->
  exif_Decode E (content f) = Ok x -> DateTime x = Ok d ->
  (resolveDate E path w).1 = d /\
  since w (resolveDate E path w).2 = [COpen path; CRead path] /\
  stdout (resolveDate E path w).2 = stdout w.
Proof.
  intros Hi Hf [Ho Hr] Hx Hd.
  unfold resolveDate, getFileDate, getImageDate, Decode. rewrite Hi. unfold_os.
  rewrite Hf, Ho. simpl. rewrite Hf, Hr. simpl. rewrite Hx. simpl. rewrite Hd. simpl.
  split; [done|]. split; [|done]. apply since_app. simpl. by rewrite <- !app_assoc.
Qed.

(** X6. For a video no metadata is read: the date used is the
    modification time [os.Stat] reports, and when [os.Stat] fails it is
    the reading of the clock, announced by one line that carries the
    cause. *)
Theorem video_is_dated_by_its_modification_time (path : string) (w : world) (f : file) :
  isImageFile (Str.ToLower (Str.Ext path)) = false ->
  isVideoFile (Str.ToLower (Str.Ext path)) = true ->
  files w !! path = Some f ->
  match stat_err E path with
  | None =>
      (resolveDate E path w).1 = modTime f /\
      since w (resolveDate E path w).2 = [CStat path] /\
      stdout (resolveDate E path w).2 = stdout w
  | Some e =>
      (resolveDate E path w).1 = wallClock E (ticks w) /\
      since w (resolveDate E path w).2 = [CStat path; CNow] /\
      stdout (resolveDate E path w).2 =
        stdout w ++ ["Error extracting date for file " +:+ path +:+ ": " +:+
                     "error extracting date from video " +:+ path +:+ ": " +:+ e]
  end.
Proof.
  intros Hi Hv Hf.
  unfold resolveDate, getFileDate, getVideoDate, getFileCreationDate.
  rewrite Hi, Hv. unfold_os. rewrite Hf.
  destruct (stat_err E path) as [e|]; simpl.
  - split; [done|]. split; [|done]. apply since_app. simpl. by rewrite <- !app_assoc.
  - split; [done|]. split; [|done]. by apply since_app.
Qed.

End Reading.

(** ** What stops a run, and what a run keeps *)

Section RunFacts.
Variable E : env.
Variables (targetDir : string) (dryRun : bool).

Local Abbreviation fn := (walkFn E targetDir dryRun).

(** A planned file is handed to the transfer in the world the plan was
    made in. *)
Lemma walkFn_planned st v w p :
  plan_of E targetDir st v w = Some p ->
  p_src p = e_path v /\
  fn st v w = transfer E dryRun (planned_maps st p) (p_src p) (p_dest p)
                (placing_world E targetDir v w) /\
  files (placing_world E targetDir v w) = files w /\
  exists f, files w !! p_src p = Some f /\ p_hash p = sha256_hex E (content f).
Proof.
  unfold plan_of, placing_world.
  destruct (e_err v) eqn:H1; [done|]. destruct (e_isDir v) eqn:H2; [done|].
  destruct (isMedia v) eqn:H3; [|done].
  destruct (calculateFileHash E (e_path v) w) as [[h|] w2] eqn:Hh; [|done].
  destruct (fileHashes st !! h) eqn:Hd; [done|].
  pose proof (resolveDate_files E (e_path v) w2) as [Hrf _].
  destruct (resolveDate E (e_path v) w2) as [d w3] eqn:Hr. simpl in Hrf.
  rewrite (walkFn_fresh E _ _ _ _ _ h w2 d w3) by done.
  pose proof (MkdirAll_files E (subDirOf targetDir (extOf v) d) w3) as Hmf.
  destruct (OS.MkdirAll E _ w3) as [[e|] w4]; [done|]. simpl in *.
  intros [= <-]. simpl.
  destruct (calculateFileHash_ok E _ _ _ _ Hh) as (f & Hf & _ & -> & Hhf).
  split; [done|]. split; [done|]. split; [congruence|]. eauto.
Qed.

Lemma transfer_fails st path newPath w st' e w' :
  transfer E dryRun st path newPath w = ((st', Some e), w') ->
  dryRun = false /\ moveFile E path newPath w = (Some e, w').
Proof.
  unfold transfer, OS.Printf, bind, ret. destruct dryRun; simpl; [done|].
  by destruct (moveFile E path newPath w) as [[e'|] w1]; intros [= <- <- <-].
Qed.

Lemma walkFn_fails st v w st' e w' :
  fn st v w = ((st', Some e), w') -> stops_at E targetDir dryRun st v w e w'.
Proof.
  intros Hfn. unfold stops_at.
  destruct (e_err v) as [e0|] eqn:H1.
  { rewrite (walkFn_error E _ _ _ _ e0) in Hfn by done. injection Hfn as <- <- <-. auto. }
  destruct (e_isDir v) eqn:H2; [by rewrite walkFn_dir in Hfn|].
  destruct (isMedia v) eqn:H3; [|by rewrite walkFn_other in Hfn].
  destruct (calculateFileHash E (e_path v) w) as [[h|e0] w2] eqn:Hh.
  2:{ rewrite (walkFn_hash_failed E _ _ _ _ _ e0 w2) in Hfn by done.
      injection Hfn as <- <- <-. right. left. repeat split; try done. by left. }
  destruct (fileHashes st !! h) as [existing|] eqn:Hd.
  { rewrite (walkFn_duplicate E _ _ _ _ _ h w2 existing) in Hfn by done.
    by apply skipDuplicate_maps in Hfn as [_ ?]. }
  destruct (resolveDate E (e_path v) w2) as [d w3] eqn:Hr.
  destruct (plan_of E targetDir st v w) as [p|] eqn:Hp.
  - destruct (walkFn_planned _ _ _ _ Hp) as (_ & Heq & _).
    rewrite Heq in Hfn. apply transfer_fails in Hfn as [Hdry Hmv].
    right. right. split; [done|]. eauto.
  - rewrite (walkFn_fresh E _ _ _ _ _ h w2 d w3) in Hfn by done.
    unfold plan_of in Hp. rewrite H1, H2, H3, Hh, Hd, Hr in Hp.
    destruct (OS.MkdirAll E _ w3) as [[e0|] w4] eqn:Hmk; [|done].
    injection Hfn as <- <- <-. right. left. repeat split; try done.
    right. exists h, w2, d, w3. by rewrite Hmk.
Qed.

Lemma stops_at_fails st v w e w' :
  stops_at E targetDir dryRun st v w e w' -> exists st', fn st v w = ((st', Some e), w').
Proof.
  intros [[H1 ->]|[(H1 & H2 & H3 & Hf)|(Hdry & p & Hp & Hmv)]].
  - exists st. by apply walkFn_error.
  - destruct Hf as [Hh|(h & w2 & d & w3 & Hh & Hnew & Hd & Hmk)].
    + exists st. by apply walkFn_hash_failed.
    + pose proof (walkFn_fresh E targetDir dryRun _ _ _ _ _ _ _ H1 H2 H3 Hh Hnew Hd) as Hfn.
      simpl in Hfn. rewrite Hmk in Hfn. eauto.
  - destruct (walkFn_planned _ _ _ _ Hp) as (_ & Heq & _).
    exists (planned_maps st p). rewrite Heq.
    unfold transfer, bind, ret. rewrite Hdry. simpl. by rewrite Hmv.
Qed.

Lemma Walk_fails visits st w st' e w' :
  Walk fn st visits w = ((st', Some e), w') ->
  exists pre v post st1 w1,
    visits = pre ++ v :: post /\
    Walk fn st pre w = ((st1, None), w1) /\
    fn st1 v w1 = ((st', Some e), w').
Proof.
  revert st w. induction visits as [|v rest IH]; intros st w; [done|].
  simpl. unfold bind. destruct (fn st v w) as [[st1 [e1|]] w1] eqn:Hfn.
  - intros [= <- <- <-]. by exists [], v, rest, st, w.
  - intros (pre & v' & post & st2 & w2 & -> & Hpre & Hv)%IH.
    exists (v :: pre), v', post, st2, w2. split; [done|]. split; [|done].
    simpl. unfold bind. by rewrite Hfn.
Qed.

End RunFacts.

Section RunProperties.
Variable E : env.
Variables (sourceDir targetDir : string) (dryRun : bool).

Local Abbreviation fn := (walkFn E targetDir dryRun).

(** X7. [processFiles] returns an error exactly when the walk comes,
    without an earlier error, to a visit that stops it, and there are
    three kinds of such visits: the walk itself reports an error for the
    entry; the fingerprint of an image or video cannot be computed or the
    directory of a new one cannot be created; or, outside a dry run, the
    move of a planned file fails. The error returned is the error of that
    visit and the world is the one it left. A date that cannot be read
    and a duplicate that cannot be removed never stop a run. *)
Theorem run_fails_exactly_at_a_stopping_visit (w : world) (e : error) (w' : world) :
  processFiles E sourceDir targetDir dryRun w = (Some e, w') <->
  exists pre v post st1 w1,
    Walk_visits E sourceDir = pre ++ v :: post /\
    Walk fn (Maps ∅ ∅) pre w = ((st1, None), w1) /\
    stops_at E targetDir dryRun st1 v w1 e w'.
Proof.
  unfold processFiles, bind, ret. split.
  - destruct (Walk fn (Maps ∅ ∅) (Walk_visits E sourceDir) w) as [[st' r] w''] eqn:HW.
    simpl. intros [= -> ->].
    destruct (Walk_fails E targetDir dryRun _ _ _ _ _ _ HW)
      as (pre & v & post & st1 & w1 & Hvis & Hpre & Hv).
    exists pre, v, post, st1, w1. split; [done|]. split; [done|].
    by eapply walkFn_fails.
  - intros (pre & v & post & st1 & w1 & Hvis & Hpre & Hstop).
    destruct (stops_at_fails E targetDir dryRun _ _ _ _ _ Hstop) as [st' Hv].
    rewrite Hvis, Walk_app, Hpre.
    by rewrite (Walk_stops E targetDir dryRun st1 v post w1 st' e w' Hv).
Qed.

(** X8. A dry run leaves every file as it was, whatever the walk visits
    and whichever calls fail: no file is removed, moved, created or
    rewritten. *)
Theorem dry_run_changes_no_file (w : world) :
  files (processFiles E sourceDir targetDir true w).2 = files w.
Proof.
  unfold processFiles, bind, ret.
  pose proof (dry_walk_keeps_files E targetDir (Walk_visits E sourceDir) (Maps ∅ ∅) w) as H.
  by destruct (Walk _ _ _ w) as [r w'].
Qed.

End RunProperties.

(** ** Where the files of a run end up *)

Section Extensions.

Lemma Ext_after_separator x n : Str.Ext (x +:+ String "/" n) = Str.Ext n.
Proof.
  induction x as [|a x IH]; rewrite ?append_cons, ?append_nil; simpl.
  - destruct (Str.is_empty (Str.Ext n)) eqn:He; simpl; [|done].
    destruct (Str.occurs "/" n); [by destruct (Str.Ext n)|]. by destruct (Str.Ext n).
  - rewrite IH. destruct (Str.is_empty (Str.Ext n)) eqn:He; simpl; [|done].
    rewrite occurs_append. simpl. rewrite orb_true_r. by destruct (Str.Ext n).
Qed.

Lemma Ext_of_suffix stem e :
  Str.Ext e = e -> Str.is_empty e = false -> Str.Ext (stem +:+ e) = e.
Proof.
  intros He Hne. induction stem as [|a stem IH]; rewrite ?append_cons, ?append_nil; [done|].
  simpl. by rewrite IH, Hne.
Qed.

Lemma media_ext_fixed e :
  isImageFile e || isVideoFile e = true -> Str.Ext e = e /\ Str.ToLower e = e.
Proof.
  unfold isImageFile, isVideoFile.
  intros [H|H]%orb_true_iff; apply bool_decide_eq_true in H;
    repeat (apply elem_of_cons in H as [->|H]; [done|]);
    by apply elem_of_nil in H.
Qed.

(** The destination of a plan has the extension of the plan. *)
Lemma dest_extension (p : plan) :
  isImageFile (p_ext p) || isVideoFile (p_ext p) = true ->
  Str.ToLower (Str.Ext (p_dest p)) = p_ext p.
Proof.
  intros Hm. destruct (media_ext_fixed _ Hm) as [Hfix Hlow].
  destruct (media_ext_shape _ Hm) as (_ & _ & Hne & _).
  assert (Hname : Str.Ext (p_name p) = p_ext p).
  { unfold p_name, fileName. destruct (decide (0 < p_counter p)).
    - rewrite <- !append_assoc. by apply Ext_of_suffix.
    - by apply Ext_of_suffix. }
  assert (Hn : Str.is_empty (p_name p) = false).
  { by apply (fileName_no_separator (p_date p) (p_counter p) (p_ext p)). }
  unfold p_dest. simpl. rewrite Hn. simpl. rewrite Hn.
  destruct (Str.is_empty (p_subDir p)); [by rewrite Hname|].
  rewrite append_cons, append_nil, Ext_after_separator. by rewrite Hname.
Qed.

End Extensions.

Section Placement.
Variable E : env.
Variables (targetDir : string) (dryRun : bool).

Local Abbreviation fn := (walkFn E targetDir dryRun).

(** One visit writes to the visited path and to the planned destination
    only. *)
Lemma walkFn_frame st v w q :
  q <> e_path v ->
  (forall p, plan_of E targetDir st v w = Some p -> q <> p_dest p) ->
  files (fn st v w).2 !! q = files w !! q.
Proof.
  intros Hq Hdest.
  destruct (plan_of E targetDir st v w) as [p|] eqn:Hp.
  { destruct (walkFn_planned E targetDir dryRun _ _ _ _ Hp) as (Hsrc & -> & Hfiles & _).
    unfold transfer, OS.Printf, bind, ret. destruct dryRun; simpl.
    - by rewrite Hfiles.
    - destruct (moveFile_frame E (p_src p) (p_dest p) (placing_world E targetDir v w) q)
        as [Hm _]; [congruence|by apply Hdest|].
      destruct (moveFile E _ _ _) as [[e|] w1]; simpl in *; by rewrite Hm, Hfiles. }
  unfold plan_of in Hp.
  destruct (e_err v) as [e|] eqn:H1; [by rewrite (walkFn_error E _ _ _ _ e)|].
  destruct (e_isDir v) eqn:H2; [by rewrite walkFn_dir|].
  destruct (isMedia v) eqn:H3; [|by rewrite walkFn_other].
  pose proof (calculateFileHash_files E (e_path v) w) as [Hh _].
  destruct (calculateFileHash E (e_path v) w) as [[h|e] w2] eqn:Hc; simpl in Hh.
  2:{ rewrite (walkFn_hash_failed E _ _ _ _ _ e w2) by done. simpl. by rewrite Hh. }
  destruct (fileHashes st !! h) as [existing|] eqn:Hd.
  { rewrite (walkFn_duplicate E _ _ _ _ _ h w2 existing) by done.
    unfold skipDuplicate. unfold_os. destruct dryRun; simpl; [by rewrite Hh|].
    destruct (files w2 !! e_path v); simpl; [|by rewrite Hh].
    destruct (remove_err E (e_path v)); simpl; [by rewrite Hh|].
    rewrite lookup_delete_ne by congruence. by rewrite Hh. }
  pose proof (resolveDate_files E (e_path v) w2) as [Hr _].
  destruct (resolveDate E (e_path v) w2) as [d w3] eqn:Hrd; simpl in Hr.
  rewrite (walkFn_fresh E _ _ _ _ _ h w2 d w3) by done.
  pose proof (MkdirAll_files E (subDirOf targetDir (extOf v) d) w3) as Hm.
  destruct (OS.MkdirAll E _ w3) as [[e|] w4]; simpl in *; [|done].
  by rewrite Hm, Hr, Hh.
Qed.

(** A path that is no image and no video is neither visited as one nor
    planned as a destination. *)
Lemma other_kind_is_off_the_path st v w q :
  isImageFile (Str.ToLower (Str.Ext q)) || isVideoFile (Str.ToLower (Str.Ext q)) = false ->
  files (fn st v w).2 !! q = files w !! q.
Proof.
  intros Hq.
  destruct (e_err v) as [e|] eqn:H1; [by rewrite (walkFn_error E _ _ _ _ e)|].
  destruct (e_isDir v) eqn:H2; [by rewrite walkFn_dir|].
  destruct (isMedia v) eqn:H3; [|by rewrite walkFn_other].
  apply walkFn_frame.
  - intros ->. unfold isMedia, extOf in H3. congruence.
  - intros p Hp ->. destruct (plan_of_shape E targetDir _ _ _ _ Hp) as [Hm _].
    rewrite (dest_extension p Hm) in Hq. congruence.
Qed.

Lemma other_kind_survives_walk visits st w q :
  isImageFile (Str.ToLower (Str.Ext q)) || isVideoFile (Str.ToLower (Str.Ext q)) = false ->
  files (Walk fn st visits w).2 !! q = files w !! q.
Proof.
  intros Hq. revert st w. induction visits as [|v rest IH]; intros st w; [done|].
  simpl. unfold bind. pose proof (other_kind_is_off_the_path st v w q Hq) as Hv.
  destruct (fn st v w) as [[st' [e|]] w']; simpl in *; [done|].
  by rewrite IH.
Qed.

(** Every plan made so far has its fingerprint in [fileHashes], so a later
    plan has another one. *)
Lemma plans_hashes visits st w i p :
  plans E targetDir dryRun st visits w !! i = Some p ->
  fileHashes st !! p_hash p = None /\
  forall j q, i < j -> plans E targetDir dryRun st visits w !! j = Some q ->
              p_hash q <> p_hash p.
Proof.
  revert st w i p. induction visits as [|v rest IH]; intros st w i p; simpl; [done|].
  destruct (fn st v w) as [[st' r] w'] eqn:Hfn.
  pose proof (walkFn_maps E targetDir dryRun _ _ _ _ _ _ Hfn) as Hmaps.
  assert (Hmono : forall h, fileHashes st' !! h = None -> fileHashes st !! h = None).
  { intros h Hnone. destruct (fileHashes st !! h) as [x|] eqn:Hx; [|done].
    by rewrite (walkFn_hashes_mono E targetDir dryRun _ _ _ _ _ _ _ _ Hfn Hx) in Hnone. }
  destruct (plan_of E targetDir st v w) as [p0|] eqn:Hp; simpl.
  - destruct Hmaps as (_ & Hnew & _ & ->).
    destruct i as [|i]; simpl.
    + intros [= <-]. split; [done|]. intros [|j] q Hj; [lia|]. simpl.
      destruct r; [done|]. intros Hq%IH. destruct Hq as [Hq _]. simpl in Hq.
      intros Heq. rewrite Heq, lookup_insert_eq in Hq. done.
    + destruct r; [done|]. intros Hi. destruct (IH _ _ _ _ Hi) as [Hnone Hlater].
      split; [by apply Hmono|]. intros [|j] q Hj; [lia|]. simpl.
      apply Hlater. lia.
  - destruct r; [done|]. intros Hi. destruct (IH _ _ _ _ Hi) as [Hnone Hlater].
    split; [by apply Hmono|done].
Qed.

End Placement.

Section PlacementProperties.
Variable E : env.
Variable targetDir : string.

(** What a successful visit of a planned file leaves, outside a dry run. *)
Lemma walkFn_placed st v w p st' w' :
  plan_of E targetDir st v w = Some p ->
  walkFn E targetDir false st v w = ((st', None), w') ->
  p_src p <> p_dest p ->
  exists f, files w !! p_src p = Some f /\
            p_hash p = sha256_hex E (content f) /\
            st' = planned_maps st p /\
            files w' !! p_src p = None /\
            content <$> files w' !! p_dest p = Some (content f).
Proof.
  intros Hp Hfn Hne.
  destruct (walkFn_planned E targetDir false _ _ _ _ Hp) as (_ & Heq & Hfiles & f & Hf & Hh).
  rewrite Heq in Hfn. unfold transfer, OS.Printf, bind, ret in Hfn. simpl in Hfn.
  destruct (moveFile E (p_src p) (p_dest p) (placing_world E targetDir v w))
    as [[e|] w1] eqn:Hmv; [done|].
  injection Hfn as <- <-. simpl.
  destruct (moveFile_done E _ _ _ _ Hne Hmv) as (f' & Hf' & Hgone & Hthere).
  rewrite Hfiles, Hf in Hf'. injection Hf' as <-.
  exists f. by repeat split.
Qed.

(** X9. A path whose lowercased extension is neither an image nor a video
    extension holds, after the run, what it held before, in a dry run or
    not and whatever fails: the run neither removes nor overwrites files
    of other kinds. *)
Theorem other_kinds_are_never_touched
  (sourceDir : string) (dryRun : bool) (w : world) (q : string) :
  isImageFile (Str.ToLower (Str.Ext q)) = false ->
  isVideoFile (Str.ToLower (Str.Ext q)) = false ->
  files (processFiles E sourceDir targetDir dryRun w).2 !! q = files w !! q.
Proof.
  intros Hi Hv. unfold processFiles, bind, ret.
  pose proof (other_kind_survives_walk E targetDir dryRun (Walk_visits E sourceDir)
                (Maps ∅ ∅) w q) as H.
  destruct (Walk _ _ _ w) as [r w']. simpl in *. apply H. by rewrite Hi, Hv.
Qed.

(** X10. Outside a dry run, a visit that places a file and reports no
    error has moved it: the visited path is gone and the planned
    destination holds its bytes. The name was chosen from the counter
    alone, so a file that was at the destination before the visit, for
    instance from an earlier run, is replaced. *)
Theorem placed_file_replaces_the_destination
  (st : maps) (v : entry) (w : world) (p : plan) (st' : maps) (w' : world) :
  plan_of E targetDir st v w = Some p ->
  walkFn E targetDir false st v w = ((st', None), w') ->
  p_src p <> p_dest p ->
  exists f, files w !! p_src p = Some f /\
            files w' !! p_src p = None /\
            content <$> files w' !! p_dest p = Some (content f).
Proof.
  intros Hp Hfn Hne.
  destruct (walkFn_placed _ _ _ _ _ _ Hp Hfn Hne) as (f & ? & _ & _ & ? & ?). eauto.
Qed.

(** X11. Outside a dry run, when the walk comes to the destination of a
    file it has just placed (the target lies inside the source), the
    callback takes the file for a duplicate of its own former path and
    removes it: afterwards neither the source path nor the destination
    holds the file. *)
Theorem revisited_destination_is_removed
  (st : maps) (v : entry) (w : world) (p : plan) (st' : maps) (w' : world) :
  plan_of E targetDir st v w = Some p ->
  walkFn E targetDir false st v w = ((st', None), w') ->
  p_src p <> p_dest p ->
  readable E (p_dest p) ->
  remove_err E (p_dest p) = None ->
  exists w'',
    walkFn E targetDir false st' (Entry (p_dest p) false None) w' = ((st', None), w'') /\
    files w'' !! p_dest p = None /\
    files w'' !! p_src p = None /\
    stdout w'' = stdout w' ++
      ["Duplicate file found: " +:+ p_dest p +:+ " (duplicate of " +:+ p_src p +:+ ")";
       "Deleted duplicate file: " +:+ p_dest p].
Proof.
  intros Hp Hfn Hne Hrd Hrm.
  destruct (walkFn_placed _ _ _ _ _ _ Hp Hfn Hne) as (f & Hf & Hh & -> & Hgone & Hthere).
  destruct (files w' !! p_dest p) as [f'|] eqn:Hf'; [|done].
  injection Hthere as Hc.
  pose proof (calculateFileHash_readable E _ _ _ Hf' Hrd) as Hhash.
  destruct (plan_of_shape E targetDir _ _ _ _ Hp) as [Hm _].
  assert (Hmedia : isMedia (Entry (p_dest p) false None) = true).
  { unfold isMedia, extOf. simpl. by rewrite (dest_extension p Hm). }
  assert (Hseen : fileHashes (planned_maps st p) !! sha256_hex E (content f')
                  = Some (p_src p)).
  { rewrite Hc, <- Hh. apply lookup_insert_eq. }
  rewrite (walkFn_duplicate E targetDir false (planned_maps st p)
             (Entry (p_dest p) false None) w' _ _ (p_src p) eq_refl eq_refl Hmedia
             Hhash Hseen).
  unfold skipDuplicate. unfold_os. rewrite Hf', Hrm.
  eexists. split; [reflexivity|]. simpl.
  rewrite lookup_delete_eq. rewrite lookup_delete_ne by congruence.
  split; [done|]. split; [done|]. by rewrite <- app_assoc.
Qed.

(** X12. No two files placed in one run have the same fingerprint: of the
    files with some content, at most one is given a destination. *)
Theorem placed_files_have_distinct_fingerprints
  (sourceDir : string) (dryRun : bool) (w : world) (i j : nat) (p q : plan) :
  run_plans E sourceDir targetDir dryRun w !! i = Some p ->
  run_plans E sourceDir targetDir dryRun w !! j = Some q ->
  i <> j ->
  p_hash p <> p_hash q.
Proof.
  intros Hi Hj Hne. unfold run_plans in *.
  destruct (Nat.lt_trichotomy i j) as [Hlt|[->|Hlt]]; [|done|].
  - destruct (plans_hashes E targetDir dryRun _ _ _ _ _ Hi) as [_ Hlater].
    intros Heq. by apply (Hlater j q Hlt Hj).
  - destruct (plans_hashes E targetDir dryRun _ _ _ _ _ Hj) as [_ Hlater].
    by apply (Hlater i p Hlt Hi).
Qed.

End PlacementProperties.

(** ** The entry point *)

Section MainProperties.
Variable E : env.

Lemma StatPath_missing path w :
  missing w path -> stat_err E path = None ->
  StatPath E path w =
    (Some (no_such "stat" path, true),
     World (files w) (dirs w) (stdout w) (calls w ++ [CStat path]) (ticks w)).
Proof.
  intros [Hf Hd] He. unfold StatPath. unfold_os. rewrite He, Hf.
  rewrite bool_decide_false by (by intros [? ?]).
  by rewrite bool_decide_false.
Qed.

Lemma StatPath_keeps path w :
  files (StatPath E path w).2 = files w /\
  dirs (StatPath E path w).2 = dirs w /\
  stdout (StatPath E path w).2 = stdout w /\
  calls (StatPath E path w).2 = calls w ++ [CStat path].
Proof.
  unfold StatPath. unfold_os.
  destruct (stat_err E path); [done|].
  by destruct (bool_decide _ || bool_decide _).
Qed.

(** The check lets a path pass that exists, and one for which [os.Stat]
    fails otherwise than with "does not exist". *)
Lemma StatPath_passes path w :
  ~ missing w path \/ stat_err E path <> None ->
  IsNotExist (StatPath E path w).1 = false.
Proof.
  intros Hpass. unfold StatPath. unfold_os.
  destruct (stat_err E path) as [e|]; [done|].
  destruct Hpass as [Hex|]; [|done].
  destruct (bool_decide (is_Some (files w !! path))) eqn:Hf; [done|].
  destruct (bool_decide (path ∈ dirs w)) eqn:Hd; [done|]. simpl.
  exfalso. apply Hex. split.
  - apply bool_decide_eq_false in Hf. by apply eq_None_not_Some.
  - by apply bool_decide_eq_false in Hd.
Qed.

(** X13. When [os.Stat] reports that the source path does not exist (it
    is neither a file nor a directory), [main] prints the three prompts
    and then "Error: Source directory does not exist." and stops. When
    the source passes the check and [os.Stat] reports that the target
    path does not exist, it prints "Error: Target directory does not
    exist." and stops. In both cases the walk is not started: the only
    calls issued are the [os.Stat] of the checks, and files and
    directories are as before, whatever was answered to the dry-run
    question. *)
Theorem main_needs_both_directories
  (answer sourceDir targetDir : string) (rest : list string) (w : world) :
  let w' := (main E (answer :: sourceDir :: targetDir :: rest) w).2 in
  let prompts :=
    ["Dry-run (yes/no): "; "Enter source directory: "; "Enter target directory: "] in
  (missing w sourceDir -> stat_err E sourceDir = None ->
   files w' = files w /\ dirs w' = dirs w /\
   since w w' = [CStat sourceDir] /\
   stdout w' = stdout w ++ prompts ++ ["Error: Source directory does not exist."]) /\
  (~ missing w sourceDir \/ stat_err E sourceDir <> None ->
   missing w targetDir -> stat_err E targetDir = None ->
   files w' = files w /\ dirs w' = dirs w /\
   since w w' = [CStat sourceDir; CStat targetDir] /\
   stdout w' = stdout w ++ prompts ++ ["Error: Target directory does not exist."]).
Proof.
  intros w' prompts. subst w' prompts.
  destruct (main E (answer :: sourceDir :: targetDir :: rest) w) as [u wf] eqn:Hm.
  simpl. revert Hm. unfold main, Scanln, bind. unfold OS.Printf at 1 2 3.
  set (w0 := World _ _ _ _ _).
  assert (Hsame : forall x, missing w x <-> missing w0 x) by done.
  intros Hm. split.
  - intros Hs He. rewrite (StatPath_missing sourceDir w0 (proj1 (Hsame _) Hs) He) in Hm.
    simpl in Hm. injection Hm as <- <-. simpl.
    split; [done|]. split; [done|]. split; [by apply since_app|].
    by rewrite <- !app_assoc.
  - intros Hpass Ht He.
    assert (Hpass0 : ~ missing w0 sourceDir \/ stat_err E sourceDir <> None).
    { destruct Hpass as [Hex|]; [left|by right]. intros ?. by apply Hex, Hsame. }
    pose proof (StatPath_passes sourceDir w0 Hpass0) as Hno.
    destruct (StatPath_keeps sourceDir w0) as (Hf1 & Hd1 & Ho1 & Hc1).
    destruct (StatPath E sourceDir w0) as [err w1] eqn:Hst. simpl in *.
    rewrite Hno in Hm.
    assert (Ht1 : missing w1 targetDir).
    { destruct Ht. split; [by rewrite Hf1|by rewrite Hd1]. }
    rewrite (StatPath_missing targetDir w1 Ht1 He) in Hm. simpl in Hm.
    injection Hm as <- <-. simpl.
    split; [done|]. split; [done|].
    split; [apply since_app; by rewrite Hc1, <- app_assoc|].
    rewrite Ho1. by rewrite <- !app_assoc.
Qed.

(** X14. When the answer to the first prompt is [yes] in any mix of upper
    and lower case, [main] leaves every file as it was, whatever the
    directories hold and whichever calls fail. *)
Theorem answer_yes_changes_no_file
  (answer : string) (rest : list string) (w : world) :
  Str.ToLower answer = "yes" ->
  files (main E (answer :: rest) w).2 = files w.
Proof.
  intros Hyes.
  destruct (main E (answer :: rest) w) as [u wf] eqn:Hm.
  simpl. revert Hm. unfold main. simpl Scanln. cbv beta iota. rewrite Hyes.
  destruct (Scanln rest) as [sourceDir stdin1].
  destruct (Scanln stdin1) as [targetDir stdin2].
  unfold bind. unfold OS.Printf at 1 2 3. simpl.
  set (w0 := World _ _ _ _ _).
  destruct (StatPath_keeps sourceDir w0) as (Hf1 & _).
  destruct (StatPath E sourceDir w0) as [err1 w1]. simpl in Hf1.
  destruct (IsNotExist err1); [unfold_os; by intros [= <- <-]|].
  destruct (StatPath_keeps targetDir w1) as (Hf2 & _).
  destruct (StatPath E targetDir w1) as [err2 w2]. simpl in Hf2.
  destruct (IsNotExist err2); [unfold_os; intros [= <- <-]; simpl; congruence|].
  set (w3 := World _ _ _ _ _).
  unfold processFiles, bind, ret.
  pose proof (dry_walk_keeps_files E targetDir (Walk_visits E sourceDir) (Maps ∅ ∅) w3) as Hdry.
  destruct (Walk _ _ _ w3) as [[st r] w4]. simpl in *.
  destruct r; unfold_os; intros [= <- <-]; simpl; congruence.
Qed.

End MainProperties.

(** ** Further sample runs *)

Section MoreSamples.
Import Demo Demo2.


(** Witness of X1: the plain move of [src/a.jpg]. *)
Lemma successful_move_relocates_the_bytes_witness :
  exists f, files tree !! "src/a.jpg" = Some f /\
            files (moveFile plain "src/a.jpg" "dst/a.jpg" tree).2 !! "src/a.jpg" = None /\
            content <$> files (moveFile plain "src/a.jpg" "dst/a.jpg" tree).2 !! "dst/a.jpg"
              = Some (content f).
Proof.
  apply (successful_move_relocates_the_bytes plain "src/a.jpg" "dst/a.jpg" tree);
    [discriminate|vm_compute; reflexivity].
Defined.

(** Witness of X2: the copy arrives, the source cannot be removed. *)
Lemma failed_removal_leaves_both_copies_witness :
  exists w', moveFile sticky "src/a.jpg" "dst/a.jpg" tree = (Some "permission denied", w') /\
    files w' !! "src/a.jpg" = Some (File "IMG-one" modified) /\
    content <$> files w' !! "dst/a.jpg" = Some "IMG-one" /\
    since tree w' = [CMkdirAll "dst"; CRename "src/a.jpg" "dst/a.jpg"; COpen "src/a.jpg";
                     CCreate "dst/a.jpg"; CCopy "src/a.jpg" "dst/a.jpg";
                     CRemove "src/a.jpg"].
Proof.
  apply (failed_removal_leaves_both_copies sticky "src/a.jpg" "dst/a.jpg" tree
           (File "IMG-one" modified) "invalid cross-device link" "permission denied");
    vm_compute; reflexivity.
Defined.

(** Witness of X3: a failing move of [src/a.jpg] leaves [src/b.jpg] alone. *)
Lemma moveFile_touches_only_its_paths_witness :
  files (moveFile full_disk "src/a.jpg" "dst/a.jpg" tree).2 !! "src/b.jpg"
    = files tree !! "src/b.jpg" /\
  stdout (moveFile full_disk "src/a.jpg" "dst/a.jpg" tree).2 = stdout tree.
Proof.
  apply (moveFile_touches_only_its_paths full_disk "src/a.jpg" "dst/a.jpg" tree "src/b.jpg");
    discriminate.
Defined.

(** Witness of X5: [src/a.jpg] is dated by its metadata, not by its
    modification time. *)
Lemma image_is_dated_by_its_metadata_witness :
  (resolveDate plain "src/a.jpg" tree).1 = taken /\
  since tree (resolveDate plain "src/a.jpg" tree).2 = [COpen "src/a.jpg"; CRead "src/a.jpg"] /\
  stdout (resolveDate plain "src/a.jpg" tree).2 = stdout tree.
Proof.
  apply (image_is_dated_by_its_metadata plain "src/a.jpg" tree (File "IMG-one" modified)
           (Exif (Ok taken)) taken); try reflexivity. split; reflexivity.
Defined.

(** Witness of X6: [src/e.mp4] is dated by its modification time. *)
Lemma video_is_dated_by_its_modification_time_witness :
  (resolveDate plain "src/e.mp4" tree).1 = taken /\
  since tree (resolveDate plain "src/e.mp4" tree).2 = [CStat "src/e.mp4"] /\
  stdout (resolveDate plain "src/e.mp4" tree).2 = stdout tree.
Proof.
  exact (video_is_dated_by_its_modification_time plain "src/e.mp4" tree (File "MP4" taken)
           eq_refl eq_refl eq_refl).
Defined.

(** Witness of X7: the run that cannot open [src/c.jpg] stops there. *)
Lemma run_fails_exactly_at_a_stopping_visit_witness :
  exists pre v post st1 w1,
    Walk_visits unreadable "src" = pre ++ v :: post /\
    Walk (walkFn unreadable "dst" false) (Maps ∅ ∅) pre tree = ((st1, None), w1) /\
    stops_at unreadable "dst" false st1 v w1 "open src/c.jpg: permission denied"
      (processFiles unreadable "src" "dst" false tree).2.
Proof.
  apply (run_fails_exactly_at_a_stopping_visit unreadable "src" "dst" false tree).
  vm_compute. reflexivity.
Defined.

(** Witness of X9: the note survives the plain run. *)
Lemma other_kinds_are_never_touched_witness :
  files (processFiles plain "src" "dst" false tree).2 !! "src/notes.txt"
    = files tree !! "src/notes.txt".
Proof.
  apply (other_kinds_are_never_touched plain "dst" "src" false tree "src/notes.txt");
    reflexivity.
Defined.

(** Witness of X10: [src/a.jpg] is placed. *)
Lemma placed_file_replaces_the_destination_witness :
  exists f, files tree !! p_src plan_a = Some f /\
            files placed_a.2 !! p_src plan_a = None /\
            content <$> files placed_a.2 !! p_dest plan_a = Some (content f).
Proof.
  apply (placed_file_replaces_the_destination plain "dst" (Maps ∅ ∅) (visit "src/a.jpg")
           tree plan_a placed_a.1 placed_a.2);
    [vm_compute; reflexivity|vm_compute; reflexivity|discriminate].
Defined.

(** Witness of X11: visiting the destination of [src/a.jpg] removes it. *)
Lemma revisited_destination_is_removed_witness :
  exists w'',
    walkFn plain "dst" false placed_a.1 (Entry (p_dest plan_a) false None) placed_a.2
      = ((placed_a.1, None), w'') /\
    files w'' !! p_dest plan_a = None /\
    files w'' !! p_src plan_a = None /\
    stdout w'' = stdout placed_a.2 ++
      ["Duplicate file found: " +:+ p_dest plan_a +:+ " (duplicate of "
         +:+ p_src plan_a +:+ ")";
       "Deleted duplicate file: " +:+ p_dest plan_a].
Proof.
  apply (revisited_destination_is_removed plain "dst" (Maps ∅ ∅) (visit "src/a.jpg")
           tree plan_a placed_a.1 placed_a.2);
    [vm_compute; reflexivity|vm_compute; reflexivity|discriminate|split; reflexivity
    |reflexivity].
Defined.

(** Witness of X12: [src/a.jpg] and [src/c.jpg] have different fingerprints. *)
Lemma placed_files_have_distinct_fingerprints_witness :
  p_hash plan_a <> p_hash plan_c.
Proof.
  apply (placed_files_have_distinct_fingerprints plain "dst" "src" false tree 0 1);
    [vm_compute; reflexivity|vm_compute; reflexivity|lia].
Defined.

(** Witness of X13: a source that does not exist, and a target that does
    not exist. *)
Lemma main_needs_both_directories_witness :
  stdout (main plain ["no"; "nowhere"; "dst"] tree).2 =
    ["Dry-run (yes/no): "; "Enter source directory: "; "Enter target directory: ";
     "Error: Source directory does not exist."] /\
  since tree (main plain ["no"; "nowhere"; "dst"] tree).2 = [CStat "nowhere"] /\
  stdout (main plain ["no"; "src"; "nowhere"] tree).2 =
    ["Dry-run (yes/no): "; "Enter source directory: "; "Enter target directory: ";
     "Error: Target directory does not exist."] /\
  since tree (main plain ["no"; "src"; "nowhere"] tree).2 = [CStat "src"; CStat "nowhere"].
Proof.
  assert (Hnowhere : missing tree "nowhere").
  { split; [by vm_compute|]. apply (bool_decide_unpack _). by vm_compute. }
  destruct (main_needs_both_directories plain "no" "nowhere" "dst" [] tree) as [Hsrc _].
  destruct (main_needs_both_directories plain "no" "src" "nowhere" [] tree) as [_ Htgt].
  destruct (Hsrc Hnowhere eq_refl) as (_ & _ & Hc1 & Ho1).
  destruct Htgt as (_ & _ & Hc2 & Ho2); [|exact Hnowhere|reflexivity|].
  { left. intros [_ Hd]. apply Hd. apply (bool_decide_unpack _). by vm_compute. }
  split; [exact Ho1|]. split; [exact Hc1|]. split; [exact Ho2|exact Hc2].
Defined.

(** Witness of X14: the answer in capitals. *)
Lemma answer_yes_changes_no_file_witness :
  files (main plain ["YES"; "src"; "dst"] tree).2 = files tree.
Proof.
  apply (answer_yes_changes_no_file plain "YES" ["src"; "dst"] tree). reflexivity.
Defined.

End MoreSamples.
